(** * Hyena vault cap monitor: a shallow embedding of [hyena_monitor.py]

    The monitor polls [maxDepositAmount] of a vault contract, remembers the
    last observed cap in [previous_cap] (a Python [float]) and reports a
    change when the float of the freshly read cap differs from it.

    Python floats are IEEE binary64 numbers; they are modelled with the
    executable specification [SpecFloat] of the Standard Library
    ([prec = 53], [emax = 1024]).  A [Decimal] produced by [from_wei] is the
    exact rational [units / 10^18], kept as its numerator. *)

From Stdlib Require Import ZArith List Bool Lia String.
From Stdlib Require Import Floats.SpecFloat.
Import ListNotations.
Local Open Scope string_scope.
Local Open Scope list_scope.
Local Open Scope Z_scope.

(** ** Python floats *)

Module PyFloat.

Definition prec : Z := 53.
Definition emax : Z := 1024.

Definition float : Type := spec_float.

(** [a == b] on floats (IEEE comparison: NaN differs from everything,
    the two zeros are equal). *)
Definition eqb (a b : float) : bool := SFeqb a b.

(** [a != b]. *)
Definition neqb (a b : float) : bool := negb (eqb a b).

Definition sub (a b : float) : float := SFsub prec emax a b.
Definition mul (a b : float) : float := SFmul prec emax a b.

(** [a > b]. *)
Definition gtb (a b : float) : bool := SFltb b a.

Definition is_zero (a : float) : bool :=
  match a with S754_zero _ => true | _ => false end.

Definition is_nan (a : float) : bool :=
  match a with S754_nan => true | _ => false end.

(** Finite in the sense of [math.isfinite]. *)
Definition is_finite (a : float) : bool :=
  match a with S754_zero _ | S754_finite _ _ _ => true | _ => false end.

(** The float of an integer literal, e.g. [100] in [x * 100]. *)
Definition of_int (z : Z) : float := binary_normalize prec emax z 0 false.

(** The float nearest to the rational [n / d] (ties to even), for
    [0 <= n] and [0 < d]: the quotient and its rounding position are
    computed exactly, then rounded once. *)
Definition of_ratio (n d : Z) : float :=
  let '(q, e, l) := SFdiv_core_binary prec emax n 0 d 0 in
  binary_round_aux prec emax false q e l.

(** Floats that are not NaN and carry no minus sign. *)
Definition nonneg (a : float) : bool :=
  match a with
  | S754_zero false | S754_infinity false | S754_finite false _ _ => true
  | _ => false
  end.

End PyFloat.

Abbreviation float := PyFloat.float.

(** ** Values, exceptions and the outside world *)

(** The exceptions the program can meet.  All of them are subclasses of
    [Exception], so every [except Exception] clause catches them. *)
Inductive exn : Type :=
| ContractCallError (msg : string)  (* raised by [.call()] on the RPC *)
| ValueError                        (* [from_wei] on a value out of range *)
| ZeroDivisionError                 (* float division by zero *)
| RequestException (msg : string)   (* raised by [requests.post] *)
| PlainException (msg : string).    (* [raise Exception(msg)] *)

(** A [Decimal] holding [dec_units / 10^18] exactly. *)
Record Decimal : Type := mkDecimal { dec_units : Z }.

Definition ether : Z := 10 ^ 18.
Definition MAX_WEI : Z := 2 ^ 256 - 1.

(** [Web3.from_wei(number, 'ether')]: an exact division by [10^18] in a
    decimal context of 999 digits; values outside [0 .. 2^256 - 1] are
    refused with [ValueError]. *)
Definition from_wei (number : Z) : exn + Decimal :=
  if (number <? 0) || (MAX_WEI <? number) then inl ValueError
  else inr (mkDecimal number).

(** [float(d)] for a [Decimal]: the nearest binary64 float. *)
Definition float_of_decimal (d : Decimal) : float :=
  PyFloat.of_ratio (dec_units d) ether.

(** What the optional getters hand back: a [Decimal] or the string
    ['N/A']. *)
Inductive amount : Type :=
| Amount (d : Decimal)
| NA.

Definition timestamp : Type := string.

(** Outcome of a contract view call. *)
Inductive call_result : Type :=
| Returns (v : Z)
| CallRaises (e : exn).

(** Outcome of [requests.post]: a response with its [ok] flag and
    [status_code], or an exception (bad URL, timeout, connection error). *)
Inductive post_result : Type :=
| Response (ok : bool) (status_code : Z)
| PostRaises (e : exn).

(** What the outside world answers during one cycle. *)
Record world : Type := mkWorld {
  maxDepositAmount : call_result;
  totalAssets : call_result;
  maxTokenSupply : call_result;
  now : timestamp;        (* [datetime.now()] in the body of the cycle *)
  now_handler : timestamp;(* [datetime.now()] in the [except] clause *)
  post : post_result
}.

(** The dictionary passed to [send_webhook_notification]. *)
Record change_data : Type := mkData {
  old_cap : float;
  new_cap : float;
  change : float;
  change_percent : float;
  data_timestamp : timestamp;
  total_assets : amount;
  max_supply : amount
}.

Record Config : Type := mkConfig {
  RPC_URL : string;
  CHECK_INTERVAL : Z;
  WEBHOOK_URL : option string
}.

(** The [CONFIG] of the source, with the default RPC endpoint. *)
Definition CONFIG : Config :=
  mkConfig "https://rpc.hyperliquid.xyz/evm" 60 None.

(** Lines printed on the console.  A formatted line is a function of the
    values it shows, so a line is kept as its constructor and values
    (pictographs and rulers are left out). *)
Inductive line : Type :=
| LConnected
| LErrorFetchingCap (e : exn)
| LChecking (t : timestamp)
| LMaxDepositCap (d : Decimal)
| LTotalAssets (a : amount)
| LMaxTokenSupply (a : amount)
| LInitialCap (d : Decimal)
| LChangeBlock (old : float) (new : Decimal) (plus : bool)
               (chg pct : float) (assets : amount) (t : timestamp)
| LNotificationSent
| LNotificationError (status_code : Z)
| LErrorSendingNotification (e : exn)
| LCycleError (t : timestamp) (e : exn)
| LBanner (cfg : Config)
| LFatalError (e : exn).

(** Observable actions of the process, in order. *)
Inductive output : Type :=
| Printed (l : line)
| HttpPost (url : string) (body : change_data).

(** ** The monitor object and its computations *)

Record VaultCapMonitor : Type := mkMonitor {
  previous_cap : option float
}.

(** A method of the monitor: it may raise or return, it may update the
    object, and it prints.  An update made before a raise is kept. *)
Definition M (A : Type) : Type :=
  VaultCapMonitor -> (exn + A) * VaultCapMonitor * list output.

Definition ret {A} (a : A) : M A := fun self => (inr a, self, []).

Definition bind {A B} (c : M A) (k : A -> M B) : M B :=
  fun self =>
    match c self with
    | (inl e, self', out) => (inl e, self', out)
    | (inr a, self', out) =>
        let '(r, self'', out') := k a self' in (r, self'', out ++ out')
    end.

Definition raise {A} (e : exn) : M A := fun self => (inl e, self, []).

(** [try: c except Exception as e: h e]. *)
Definition try_except {A} (c : M A) (h : exn -> M A) : M A :=
  fun self =>
    match c self with
    | (inl e, self', out) =>
        let '(r, self'', out') := h e self' in (r, self'', out ++ out')
    | ok => ok
    end.

Definition emit (o : output) : M unit := fun self => (inr tt, self, [o]).
Definition print (l : line) : M unit := emit (Printed l).
Definition get_previous_cap : M (option float) :=
  fun self => (inr (previous_cap self), self, []).
Definition set_previous_cap (f : float) : M unit :=
  fun _ => (inr tt, mkMonitor (Some f), []).
Definition lift {A} (r : exn + A) : M A := fun self => (r, self, []).

Notation "x <- c ;; k" := (bind c (fun x => k))
  (at level 61, c at next level, right associativity).
Notation "c ;;; k" := (bind c (fun _ => k))
  (at level 61, right associativity).

(** [self.vault.functions.f().call()]. *)
Definition call (r : call_result) : M Z :=
  match r with
  | Returns v => ret v
  | CallRaises e => raise e
  end.

(** [a / b] on floats: Python raises on a zero divisor. *)
Definition truediv (a b : float) : M float :=
  if PyFloat.is_zero b then raise ZeroDivisionError
  else ret (SFdiv PyFloat.prec PyFloat.emax a b).

(** ** The methods of [VaultCapMonitor] *)

Definition unable_to_connect : exn :=
  PlainException "Unable to connect to HyperEVM RPC".
Definition unable_to_retrieve : exn :=
  PlainException "Unable to retrieve vault cap".

(** [__init__]: [connected] is the answer of [self.w3.is_connected()]. *)
Definition init (connected : bool) : exn + (VaultCapMonitor * list output) :=
  if negb connected then inl unable_to_connect
  else inr (mkMonitor None, [Printed LConnected]).

Definition get_current_cap (w : world) : M Decimal :=
  try_except
    (max_deposit <- call (maxDepositAmount w) ;;
     lift (from_wei max_deposit))
    (fun e => print (LErrorFetchingCap e) ;;; raise unable_to_retrieve).

Definition get_max_token_supply (w : world) : M amount :=
  try_except
    (max_supply <- call (maxTokenSupply w) ;;
     d <- lift (from_wei max_supply) ;;
     ret (Amount d))
    (fun _ => ret NA).

Definition get_total_assets (w : world) : M amount :=
  try_except
    (total <- call (totalAssets w) ;;
     d <- lift (from_wei total) ;;
     ret (Amount d))
    (fun _ => ret NA).

(** [not CONFIG['WEBHOOK_URL']]: [None] and the empty string are falsy. *)
Definition webhook_target (cfg : Config) : option string :=
  match WEBHOOK_URL cfg with
  | None => None
  | Some EmptyString => None
  | Some url => Some url
  end.

(** [requests.post(url, json={'text': message}, timeout=10)]; the message
    is a format of [data], so the request is recorded with [data]. *)
Definition requests_post (url : string) (data : change_data)
    (r : post_result) : M (bool * Z) :=
  emit (HttpPost url data) ;;;
  match r with
  | Response ok status_code => ret (ok, status_code)
  | PostRaises e => raise e
  end.

Definition send_webhook_notification (cfg : Config) (w : world)
    (data : change_data) : M unit :=
  match webhook_target cfg with
  | None => ret tt
  | Some url =>
      try_except
        (response <- requests_post url data (post w) ;;
         if fst response then print LNotificationSent
         else print (LNotificationError (snd response)))
        (fun e => print (LErrorSendingNotification e))
  end.

(** The test of the [elif] (line 140): [float(current_cap) != previous]. *)
Definition cap_changed (current_cap : Decimal) (previous : float) : bool :=
  PyFloat.neqb (float_of_decimal current_cap) previous.

Definition check_cap_change (cfg : Config) (w : world) : M unit :=
  try_except
    (current_cap <- get_current_cap w ;;
     total_assets <- get_total_assets w ;;
     max_supply <- get_max_token_supply w ;;
     let timestamp := now w in
     print (LChecking timestamp) ;;;
     print (LMaxDepositCap current_cap) ;;;
     print (LTotalAssets total_assets) ;;;
     print (LMaxTokenSupply max_supply) ;;;
     previous <- get_previous_cap ;;
     match previous with
     | None =>
         print (LInitialCap current_cap) ;;;
         set_previous_cap (float_of_decimal current_cap)
     | Some previous =>
         if cap_changed current_cap previous then
           let change := PyFloat.sub (float_of_decimal current_cap) previous in
           quotient <- truediv change previous ;;
           let change_percent := PyFloat.mul quotient (PyFloat.of_int 100) in
           print (LChangeBlock previous current_cap
                    (PyFloat.gtb change (PyFloat.of_int 0))
                    change change_percent total_assets timestamp) ;;;
           send_webhook_notification cfg w
             (mkData previous (float_of_decimal current_cap) change
                change_percent timestamp total_assets max_supply) ;;;
           set_previous_cap (float_of_decimal current_cap)
         else ret tt
     end)
    (fun e => print (LCycleError (now_handler w) e)).

(** The cycles of [start], one per element of [ws]: the first check and
    then one check after each sleep. *)
Fixpoint cycles (cfg : Config) (ws : list world) : M unit :=
  match ws with
  | [] => ret tt
  | w :: ws' => check_cap_change cfg w ;;; cycles cfg ws'
  end.

(** [start], observed over the ticks [ws] (the source loops for ever). *)
Definition start (cfg : Config) (ws : list world) : M unit :=
  print (LBanner cfg) ;;; cycles cfg ws.

(** [main]: both [except] clauses print and return. *)
Definition main (cfg : Config) (connected : bool) (ws : list world)
    : (exn + unit) * list output :=
  match init connected with
  | inl e => (inr tt, [Printed (LFatalError e)])
  | inr (monitor, out) =>
      match start cfg ws monitor with
      | (inl e, _, out') => (inr tt, out ++ out' ++ [Printed (LFatalError e)])
      | (inr _, _, out') => (inr tt, out ++ out')
      end
  end.

(** Exit status of the interpreter after [asyncio.run(main())]: zero
    unless an exception escapes. *)
Definition exit_status (r : exn + unit) : Z :=
  match r with
  | inl _ => 1
  | inr _ => 0
  end.

Definition script (cfg : Config) (connected : bool) (ws : list world)
    : Z * list output :=
  let '(r, out) := main cfg connected ws in (exit_status r, out).

(** ** Observations on a run *)

Definition is_change_block (o : output) : bool :=
  match o with
  | Printed (LChangeBlock _ _ _ _ _ _ _) => true
  | _ => false
  end.

(** Number of change events printed in [out]. *)
Definition change_events (out : list output) : nat :=
  List.length (filter is_change_block out).

Definition result_of {A} (r : (exn + A) * VaultCapMonitor * list output) :=
  fst (fst r).
Definition monitor_of {A} (r : (exn + A) * VaultCapMonitor * list output) :=
  snd (fst r).
Definition output_of {A} (r : (exn + A) * VaultCapMonitor * list output) :=
  snd r.

(** A world in which only the deposit cap matters. *)
Definition sample (cap : Z) : world :=
  mkWorld (Returns cap) (CallRaises (ContractCallError "totalAssets"))
          (CallRaises (ContractCallError "maxTokenSupply"))
          "t" "t" (PostRaises (RequestException "timeout")).

(** A configuration with a webhook, and a cycle whose cap read fails. *)
Definition hooked : Config := mkConfig "http://rpc" 60 (Some "http://hook").

Definition rpc_down : world :=
  mkWorld (CallRaises (ContractCallError "rpc down")) (Returns 1) (Returns 2)
          "12:00" "12:01" (Response true 200).

(** [Response.ok] of the library [requests]: true unless the status is
    a client or server error ([400 <= status_code < 600]). *)
Definition requests_ok (status_code : Z) : bool :=
  negb ((400 <=? status_code) && (status_code <? 600)).

(** The response [requests.post] hands back for a final status. *)
Definition http_response (status_code : Z) : post_result :=
  Response (requests_ok status_code) status_code.

(** A cycle that reads 150 tokens and whose webhook answers 302. *)
Definition redirected : world :=
  mkWorld (Returns (150 * ether)) (Returns 1) (Returns 2)
          "12:00" "12:01" (http_response 302).

(** The shape of the stored cap: unset, or a finite float. *)
Definition unset_or_finite (self : VaultCapMonitor) : bool :=
  match previous_cap self with
  | None => true
  | Some f => PyFloat.is_finite f
  end.

(** A monitor is settled on the cap [d] when a cycle that reads [d]
    either sees no change or stops at the division by a stored zero. *)
Definition settled (d : Decimal) (self : VaultCapMonitor) : bool :=
  match previous_cap self with
  | None => false
  | Some p => negb (cap_changed d p) || PyFloat.is_zero p
  end.

(** ** Reading helpers used in the statements *)

(** The deposit cap the cycle obtains: the call and [from_wei] both have
    to succeed. *)
Definition cap_read (w : world) : exn + Decimal :=
  match maxDepositAmount w with
  | Returns v => from_wei v
  | CallRaises e => inl e
  end.


(** The value an optional getter yields for the answer [r]. *)
Definition amount_read (r : call_result) : amount :=
  match r with
  | Returns v => match from_wei v with inl _ => NA | inr d => Amount d end
  | CallRaises _ => NA
  end.

(** The four lines that open every cycle whose cap read succeeded. *)
Definition header (w : world) (d : Decimal) : list output :=
  [Printed (LChecking (now w)); Printed (LMaxDepositCap d);
   Printed (LTotalAssets (amount_read (totalAssets w)));
   Printed (LMaxTokenSupply (amount_read (maxTokenSupply w)))].

(** The two lines of a cycle whose cap read failed with [e]. *)
Definition read_error_lines (w : world) (e : exn) : list output :=
  [Printed (LErrorFetchingCap e);
   Printed (LCycleError (now_handler w) unable_to_retrieve)].

(** What the notifier does for [data]. *)
Definition webhook_output (cfg : Config) (w : world) (data : change_data)
    : list output :=
  match webhook_target cfg with
  | None => []
  | Some url =>
      [HttpPost url data;
       Printed match post w with
             | Response true _ => LNotificationSent
             | Response false status_code => LNotificationError status_code
             | PostRaises e => LErrorSendingNotification e
             end]
  end.

(** The change event of a cycle that reads [d] while [p] is stored. *)
Definition event_data (w : world) (p : float) (d : Decimal) : change_data :=
  let chg := PyFloat.sub (float_of_decimal d) p in
  mkData p (float_of_decimal d) chg
    (PyFloat.mul (SFdiv PyFloat.prec PyFloat.emax chg p) (PyFloat.of_int 100))
    (now w) (amount_read (totalAssets w)) (amount_read (maxTokenSupply w)).

Definition change_block (w : world) (p : float) (d : Decimal) : output :=
  let data := event_data w p d in
  Printed (LChangeBlock p d (PyFloat.gtb (change data) (PyFloat.of_int 0))
           (change data) (change_percent data) (total_assets data) (now w)).

Definition is_http_post (o : output) : bool :=
  match o with
  | HttpPost _ _ => true
  | _ => false
  end.

(** Number of webhook requests made in [out]. *)
Definition http_posts (out : list output) : nat :=
  List.length (filter is_http_post out).

(** Whether each cycle of a run printed a change block, cycle by cycle. *)
Fixpoint observed_events (cfg : Config) (ws : list world)
    (self : VaultCapMonitor) : list bool :=
  match ws with
  | [] => []
  | w :: ws' =>
      let r := check_cap_change cfg w self in
      (0 <? change_events (output_of r))%nat
        :: observed_events cfg ws' (monitor_of r)
  end.

(** Whether each cap of [ds] differs from the one before it, under the
    comparison of the program; [prev] is the cap sampled before [ds]. *)
Fixpoint expected_events (prev : option Decimal) (ds : list Decimal)
    : list bool :=
  match ds with
  | [] => []
  | d :: ds' =>
      match prev with
      | None => false
      | Some d0 => cap_changed d (float_of_decimal d0)
      end :: expected_events (Some d) ds'
  end.

(** ** Counting helpers for whole runs *)

(** Number of outputs of [out] that satisfy [f]. *)
Definition count_if (f : output -> bool) (out : list output) : nat :=
  List.length (filter f out).

(** The first line a cycle prints: the "Checking vault" line, or the
    fetch error when the cap read failed. *)
Definition is_cycle_start (o : output) : bool :=
  match o with
  | Printed (LChecking _) | Printed (LErrorFetchingCap _) => true
  | _ => false
  end.

(** The error line of the handler of [check_cap_change]. *)
Definition is_cycle_error (o : output) : bool :=
  match o with
  | Printed (LCycleError _ _) => true
  | _ => false
  end.

Definition is_fatal_error (o : output) : bool :=
  match o with
  | Printed (LFatalError _) => true
  | _ => false
  end.

(** Every request of [out] goes to [url]. *)
Definition posts_to (url : string) (o : output) : Prop :=
  match o with
  | HttpPost u _ => u = url
  | _ => True
  end.

(** The cap of the last cycle of [ws] whose cap read succeeded, [prev]
    when there is none. *)
Fixpoint last_read (prev : option Decimal) (ws : list world)
    : option Decimal :=
  match ws with
  | [] => prev
  | w :: ws' =>
      last_read match cap_read w with
                | inr d => Some d
                | inl _ => prev
                end ws'
  end.

(** * Facts about the rounding of [binary64]

    Right shifts keep a mantissa between zero and its start, so the
    float of a non-negative quotient is never NaN and never negative;
    a mantissa below [2^256] with a non-positive exponent cannot
    overflow. *)

Section FloatFacts.

Lemma shr_1_bounds (mrs : shr_record) :
  0 <= shr_m mrs -> 0 <= shr_m (shr_1 mrs) <= shr_m mrs.
Proof.
  destruct mrs as [m r s]; simpl.
  destruct m as [|p|p]; simpl; try lia.
  destruct p; simpl; lia.
Qed.

Lemma iter_shr_1_bounds (p : positive) : forall mrs,
  0 <= shr_m mrs -> 0 <= shr_m (iter_pos shr_1 p mrs) <= shr_m mrs.
Proof.
  induction p as [p IH|p IH|]; intros mrs H; simpl.
  - pose proof (shr_1_bounds mrs H) as H1.
    pose proof (IH _ (proj1 H1)) as H2.
    pose proof (IH _ (proj1 H2)) as H3. lia.
  - pose proof (IH _ H) as H2.
    pose proof (IH _ (proj1 H2)) as H3. lia.
  - now apply shr_1_bounds.
Qed.

Lemma shr_bounds (mrs : shr_record) (e n : Z) :
  0 <= shr_m mrs ->
  0 <= shr_m (fst (shr mrs e n)) <= shr_m mrs /\
  snd (shr mrs e n) = Z.max e (e + n).
Proof.
  intros H. destruct n as [|p|p]; simpl; try (split; lia).
  split; [now apply iter_shr_1_bounds | lia].
Qed.

Lemma shr_m_of_loc (m : Z) (l : location) : shr_m (shr_record_of_loc m l) = m.
Proof. destruct l as [|[]]; reflexivity. Qed.

Lemma shr_fexp_bounds (m e : Z) (l : location) :
  0 <= m ->
  0 <= shr_m (fst (shr_fexp PyFloat.prec PyFloat.emax m e l)) <= m /\
  snd (shr_fexp PyFloat.prec PyFloat.emax m e l)
  = Z.max e (fexp PyFloat.prec PyFloat.emax (Zdigits2 m + e)).
Proof.
  intros H. unfold shr_fexp.
  pose proof (shr_bounds (shr_record_of_loc m l) e
    (fexp PyFloat.prec PyFloat.emax (Zdigits2 m + e) - e)) as B.
  rewrite shr_m_of_loc in B. destruct (B H) as [B1 B2].
  split; [exact B1|]. rewrite B2. f_equal. lia.
Qed.

Lemma round_nearest_even_bounds (m : Z) (l : location) :
  m <= round_nearest_even m l <= m + 1.
Proof.
  destruct l as [|[]]; simpl; try lia. destruct (Z.even m); lia.
Qed.

Lemma Zdigits2_log2 (p : positive) :
  Zdigits2 (Zpos p) = Z.log2 (Zpos p) + 1.
Proof.
  simpl. induction p; simpl in *; try lia.
  - destruct p; simpl in *; lia.
  - destruct p; simpl in *; lia.
Qed.

Lemma Zdigits2_le (m k : Z) : 0 <= k -> 0 <= m < 2 ^ k -> Zdigits2 m <= k.
Proof.
  intros Hk [H0 Hm]. destruct m as [|p|p]; try lia.
  - simpl. lia.
  - rewrite Zdigits2_log2.
    assert (Z.log2 (Zpos p) < k) by (apply Z.log2_lt_pow2; lia). lia.
Qed.

Lemma Zdigits2_nonneg (m : Z) : 0 <= Zdigits2 m.
Proof. destruct m; simpl; lia. Qed.

Lemma Zdigits2_gt (m : Z) : 0 <= m -> m < 2 ^ Zdigits2 m.
Proof.
  intros H. destruct m as [|p|p]; try lia.
  - simpl. lia.
  - rewrite Zdigits2_log2. apply Z.log2_spec. lia.
Qed.


Lemma binary_round_aux_nonneg (m e : Z) (l : location) :
  0 <= m ->
  PyFloat.nonneg (binary_round_aux PyFloat.prec PyFloat.emax false m e l) = true.
Proof.
  intros Hm. unfold binary_round_aux.
  pose proof (shr_fexp_bounds m e l Hm) as [B1 _].
  destruct (shr_fexp PyFloat.prec PyFloat.emax m e l) as [mrs' e'].
  simpl in B1.
  pose proof (round_nearest_even_bounds (shr_m mrs') (loc_of_shr_record mrs'))
    as R.
  assert (0 <= round_nearest_even (shr_m mrs') (loc_of_shr_record mrs')) as R0
    by lia.
  pose proof (shr_fexp_bounds _ e' loc_Exact R0) as [B2 _].
  destruct (shr_fexp PyFloat.prec PyFloat.emax
              (round_nearest_even (shr_m mrs') (loc_of_shr_record mrs')) e'
              loc_Exact) as [mrs'' e''].
  simpl in B2.
  destruct (shr_m mrs'') as [|p|p]; try reflexivity; try lia.
  destruct (e'' <=? PyFloat.emax - PyFloat.prec); reflexivity.
Qed.

Lemma binary_round_aux_finite (m e k : Z) (l : location) :
  0 <= k -> 0 <= m < 2 ^ k -> Z.max e (-1074) + 2 * k + 1 <= 971 ->
  PyFloat.is_finite
    (binary_round_aux PyFloat.prec PyFloat.emax false m e l) = true.
Proof.
  intros Hk Hm Hb. unfold binary_round_aux.
  pose proof (shr_fexp_bounds m e l (proj1 Hm)) as [B1 E1].
  destruct (shr_fexp PyFloat.prec PyFloat.emax m e l) as [mrs' e'].
  simpl in B1, E1.
  pose proof (round_nearest_even_bounds (shr_m mrs') (loc_of_shr_record mrs'))
    as R.
  set (m1 := round_nearest_even (shr_m mrs') (loc_of_shr_record mrs')) in *.
  assert (0 <= m1) as R0 by lia.
  pose proof (shr_fexp_bounds m1 e' loc_Exact R0) as [B2 E2].
  destruct (shr_fexp PyFloat.prec PyFloat.emax m1 e' loc_Exact)
    as [mrs'' e''].
  simpl in B2, E2.
  assert (Zdigits2 m <= k) as D by (apply Zdigits2_le; lia).
  assert (Zdigits2 m1 <= k + 1) as D1.
  { apply Zdigits2_le; [lia|]. split; [lia|].
    rewrite Z.pow_add_r by lia. change (2 ^ 1) with 2. lia. }
  unfold fexp, emin, PyFloat.prec, PyFloat.emax in E1, E2.
  destruct (shr_m mrs'') as [|p|p]; try reflexivity; try lia.
  assert (e'' <= 971) as Hle by lia.
  change (PyFloat.emax - PyFloat.prec) with 971.
  apply Z.leb_le in Hle. rewrite Hle. reflexivity.
Qed.

Lemma div_core_ether (n : Z) :
  0 <= n <= MAX_WEI ->
  let '(q, e, _) := SFdiv_core_binary PyFloat.prec PyFloat.emax n 0 ether 0 in
  0 <= q < 2 ^ 256 /\ e <= 0.
Proof.
  intros Hn. unfold SFdiv_core_binary.
  change (Zdigits2 ether) with 60.
  set (e' := Z.min _ _).
  pose proof (Zdigits2_nonneg n) as Dn.
  pose proof (Zdigits2_gt n (proj1 Hn)) as Dg.
  assert (e' = Z.min (Zdigits2 n - 113) 0) as He'.
  { unfold e', fexp, emin, PyFloat.prec, PyFloat.emax. lia. }
  set (m' := match 0 - 0 - e' with
             | 0 => n | Z.pos _ => Z.shiftl n (0 - 0 - e') | Z.neg _ => 0 end).
  assert (0 <= m' < 2 ^ 256) as Hm'.
  { unfold m', MAX_WEI in *. destruct (0 - 0 - e') as [|p|p] eqn:Hs.
    - lia.
    - rewrite Z.shiftl_mul_pow2 by lia. split; [apply Z.mul_nonneg_nonneg; lia|].
      assert (Z.pos p = 113 - Zdigits2 n) as -> by lia.
      apply Z.lt_trans with (2 ^ 113); [|reflexivity].
      replace (2 ^ 113) with (2 ^ Zdigits2 n * 2 ^ (113 - Zdigits2 n)).
      + apply Z.mul_lt_mono_pos_r; [apply Z.pow_pos_nonneg; lia | exact Dg].
      + rewrite <- Z.pow_add_r by lia. f_equal. lia.
    - split; [lia | reflexivity]. }
  clearbody m'.
  pose proof (Z.div_eucl_eq m' ether ltac:(discriminate)) as Heq.
  pose proof (Z.mod_pos_bound m' ether ltac:(reflexivity)) as Hr.
  unfold Z.modulo in Hr.
  destruct (Z.div_eucl m' ether) as [q r].
  split; [|lia].
  unfold ether in *. change (10 ^ 18) with 1000000000000000000 in *. nia.
Qed.

Lemma float_of_decimal_nonneg (d : Decimal) :
  0 <= dec_units d ->
  PyFloat.nonneg (float_of_decimal d) = true.
Proof.
  intros H. unfold float_of_decimal, PyFloat.of_ratio.
  unfold SFdiv_core_binary.
  set (m' := match _ with 0 => _ | Z.pos _ => _ | Z.neg _ => _ end).
  assert (0 <= m') as Hm'.
  { unfold m'. destruct (0 - 0 - _) as [|p|p]; try lia.
    rewrite Z.shiftl_mul_pow2 by lia. apply Z.mul_nonneg_nonneg; [lia|].
    apply Z.pow_nonneg. lia. }
  clearbody m'.
  pose proof (Z.div_pos m' ether Hm' ltac:(reflexivity)) as Hq.
  unfold Z.div in Hq. destruct (Z.div_eucl m' ether) as [q r].
  now apply binary_round_aux_nonneg.
Qed.

Lemma float_of_decimal_finite (d : Decimal) :
  0 <= dec_units d <= MAX_WEI ->
  PyFloat.is_finite (float_of_decimal d) = true.
Proof.
  intros H. unfold float_of_decimal, PyFloat.of_ratio.
  pose proof (div_core_ether (dec_units d) H) as B.
  destruct (SFdiv_core_binary PyFloat.prec PyFloat.emax (dec_units d) 0 ether 0)
    as [[q e] l].
  destruct B as [Bq Be].
  apply binary_round_aux_finite with (k := 256); lia.
Qed.

(** On floats without NaN and minus sign, [==] is equality. *)
Lemma eqb_nonneg_eq (a b : float) :
  PyFloat.nonneg a = true -> PyFloat.nonneg b = true ->
  (PyFloat.eqb a b = true <-> a = b).
Proof.
  intros Ha Hb. unfold PyFloat.eqb, SFeqb.
  destruct a as [[]|[]| |[] ma ea], b as [[]|[]| |[] mb eb];
    simpl in *; try discriminate; try (split; [reflexivity|discriminate]);
    try (split; discriminate); try (split; reflexivity).
  destruct (Z.compare_spec ea eb) as [He|He|He].
  - subst eb. rewrite Pos.compare_cont_spec. simpl.
    destruct (Pos.compare_spec ma mb) as [Hm|Hm|Hm].
    + subst. split; reflexivity.
    + split; [discriminate|]. intros [= ->]. lia.
    + split; [discriminate|]. intros [= ->]. lia.
  - split; [discriminate|]. intros [= _ ->]. lia.
  - split; [discriminate|]. intros [= _ ->]. lia.
Qed.

End FloatFacts.

(** * Facts about the methods *)

Section MethodFacts.

Variable cfg : Config.

Lemma from_wei_inr (v : Z) (d : Decimal) :
  from_wei v = inr d -> d = mkDecimal v /\ 0 <= v <= MAX_WEI.
Proof.
  unfold from_wei.
  destruct (v <? 0) eqn:H1; [discriminate|].
  destruct (MAX_WEI <? v) eqn:H2; [discriminate|].
  simpl. intros [= <-]. apply Z.ltb_ge in H1, H2. split; [reflexivity | lia].
Qed.

Lemma from_wei_in_range (v : Z) :
  0 <= v <= MAX_WEI -> from_wei v = inr (mkDecimal v).
Proof.
  intros [H1 H2]. unfold from_wei.
  apply Z.ltb_ge in H1, H2. now rewrite H1, H2.
Qed.

Lemma cap_read_range (w : world) (d : Decimal) :
  cap_read w = inr d -> 0 <= dec_units d <= MAX_WEI.
Proof.
  unfold cap_read. destruct (maxDepositAmount w) as [v|e]; [|discriminate].
  intros H. apply from_wei_inr in H as [-> H]. exact H.
Qed.

Lemma get_current_cap_ok (w : world) (d : Decimal) (self : VaultCapMonitor) :
  cap_read w = inr d -> get_current_cap w self = (inr d, self, []).
Proof.
  unfold cap_read, get_current_cap, try_except, bind, call, lift.
  destruct (maxDepositAmount w) as [v|e]; [|discriminate].
  simpl. intros ->. reflexivity.
Qed.

Lemma get_current_cap_fail (w : world) (e : exn) (self : VaultCapMonitor) :
  cap_read w = inl e ->
  get_current_cap w self
  = (inl unable_to_retrieve, self, [Printed (LErrorFetchingCap e)]).
Proof.
  unfold cap_read, get_current_cap, try_except, bind, call, lift.
  destruct (maxDepositAmount w) as [v|e0]; simpl.
  - intros ->. reflexivity.
  - intros [= ->]. reflexivity.
Qed.

Lemma get_total_assets_spec (w : world) (self : VaultCapMonitor) :
  get_total_assets w self = (inr (amount_read (totalAssets w)), self, []).
Proof.
  unfold get_total_assets, amount_read, try_except, bind, call, lift.
  destruct (totalAssets w) as [v|e]; simpl; [|reflexivity].
  destruct (from_wei v); reflexivity.
Qed.

Lemma get_max_token_supply_spec (w : world) (self : VaultCapMonitor) :
  get_max_token_supply w self
  = (inr (amount_read (maxTokenSupply w)), self, []).
Proof.
  unfold get_max_token_supply, amount_read, try_except, bind, call, lift.
  destruct (maxTokenSupply w) as [v|e]; simpl; [|reflexivity].
  destruct (from_wei v); reflexivity.
Qed.


Lemma send_webhook_notification_spec (w : world) (data : change_data)
    (self : VaultCapMonitor) :
  send_webhook_notification cfg w data self
  = (inr tt, self, webhook_output cfg w data).
Proof.
  unfold send_webhook_notification, webhook_output.
  destruct (webhook_target cfg) as [url|]; [|reflexivity].
  unfold try_except, requests_post, bind, emit.
  destruct (post w) as [[] c|e]; reflexivity.
Qed.

(** The body of a cycle behind a successful cap read. *)
Lemma check_cap_change_read_ok (w : world) (d : Decimal)
    (self : VaultCapMonitor) :
  cap_read w = inr d ->
  check_cap_change cfg w self
  = match previous_cap self with
    | None =>
        (inr tt, mkMonitor (Some (float_of_decimal d)),
         header w d ++ [Printed (LInitialCap d)])
    | Some p =>
        if cap_changed d p then
          if PyFloat.is_zero p then
            (inr tt, self,
             header w d ++ [Printed (LCycleError (now_handler w) ZeroDivisionError)])
          else
            (inr tt, mkMonitor (Some (float_of_decimal d)),
             header w d ++ change_block w p d
               :: webhook_output cfg w (event_data w p d))
        else (inr tt, self, header w d)
    end.
Proof.
  intros H. unfold check_cap_change, try_except.
  unfold bind at 1. rewrite (get_current_cap_ok w d self H).
  unfold bind at 1. rewrite get_total_assets_spec.
  unfold bind at 1. rewrite get_max_token_supply_spec.
  unfold header. cbn [bind print emit get_previous_cap app].
  destruct (previous_cap self) as [p|] eqn:Hp.
  - destruct (cap_changed d p) eqn:Hc; [|destruct self; reflexivity].
    unfold truediv. destruct (PyFloat.is_zero p) eqn:Hz.
    + reflexivity.
    + cbn [bind ret print emit app]. unfold bind.
      rewrite send_webhook_notification_spec. unfold set_previous_cap.
      rewrite app_nil_r. reflexivity.
  - reflexivity.
Qed.


Lemma check_cap_change_read_error (w : world) (e : exn)
    (self : VaultCapMonitor) :
  cap_read w = inl e ->
  check_cap_change cfg w self = (inr tt, self, read_error_lines w e).
Proof.
  intros H. unfold check_cap_change, try_except.
  unfold bind at 1. rewrite (get_current_cap_fail w e self H). reflexivity.
Qed.

(** A cycle never raises: the handler of [check_cap_change] catches all. *)
Lemma check_cap_change_returns (w : world) (self : VaultCapMonitor) :
  result_of (check_cap_change cfg w self) = inr tt.
Proof.
  destruct (cap_read w) as [e|d] eqn:H.
  - rewrite (check_cap_change_read_error w e self H). reflexivity.
  - rewrite (check_cap_change_read_ok w d self H).
    destruct (previous_cap self) as [p|]; [|reflexivity].
    destruct (cap_changed d p); [|reflexivity].
    destruct (PyFloat.is_zero p); reflexivity.
Qed.

Lemma cycles_cons (w : world) (ws : list world) (self : VaultCapMonitor) :
  cycles cfg (w :: ws) self
  = (result_of (cycles cfg ws (monitor_of (check_cap_change cfg w self))),
     monitor_of (cycles cfg ws (monitor_of (check_cap_change cfg w self))),
     output_of (check_cap_change cfg w self)
       ++ output_of (cycles cfg ws (monitor_of (check_cap_change cfg w self)))).
Proof.
  pose proof (check_cap_change_returns w self) as R.
  cbn [cycles]. unfold bind, result_of, monitor_of, output_of in *.
  destruct (check_cap_change cfg w self) as [[r s] o]. simpl in R. subst r.
  simpl. destruct (cycles cfg ws s) as [[r' s'] o']. reflexivity.
Qed.

Lemma cycles_cons_monitor (w : world) (ws : list world)
    (self : VaultCapMonitor) :
  monitor_of (cycles cfg (w :: ws) self)
  = monitor_of (cycles cfg ws (monitor_of (check_cap_change cfg w self))).
Proof. rewrite cycles_cons. reflexivity. Qed.

Lemma cycles_cons_output (w : world) (ws : list world)
    (self : VaultCapMonitor) :
  output_of (cycles cfg (w :: ws) self)
  = output_of (check_cap_change cfg w self)
      ++ output_of (cycles cfg ws (monitor_of (check_cap_change cfg w self))).
Proof. rewrite cycles_cons. reflexivity. Qed.

Lemma cycles_returns (ws : list world) : forall self,
  result_of (cycles cfg ws self) = inr tt.
Proof.
  induction ws as [|w ws IH]; intros self; [reflexivity|].
  rewrite cycles_cons. unfold result_of at 1. simpl. apply IH.
Qed.

Lemma change_events_app (a b : list output) :
  change_events (a ++ b) = (change_events a + change_events b)%nat.
Proof. unfold change_events. now rewrite filter_app, length_app. Qed.

Lemma http_posts_app (a b : list output) :
  http_posts (a ++ b) = (http_posts a + http_posts b)%nat.
Proof. unfold http_posts. now rewrite filter_app, length_app. Qed.

Lemma change_events_webhook (w : world) (data : change_data) :
  change_events (webhook_output cfg w data) = 0%nat.
Proof.
  unfold webhook_output. destruct (webhook_target cfg); [|reflexivity].
  destruct (post w) as [[] c|e]; reflexivity.
Qed.

End MethodFacts.

(** * The claims *)

(** C1 (evaluation at the failing input): the first sample is a cap of
    zero, the second a cap of 50 tokens.  The two differ under the
    comparison of the program, yet the second cycle prints no change
    block and makes no request: the percentage divides by the stored
    [0.0], the handler of the cycle logs [ZeroDivisionError], and the
    stored cap stays [0.0]. *)
Theorem C1_change_after_zero_cap_not_reported :
  let r1 := check_cap_change CONFIG (sample 0) (mkMonitor None) in
  let r2 := check_cap_change CONFIG (sample (50 * ether)) (monitor_of r1) in
  cap_read (sample 0) = inr (mkDecimal 0) /\
  cap_read (sample (50 * ether)) = inr (mkDecimal (50 * ether)) /\
  change_events (output_of r1) = 0%nat /\
  cap_changed (mkDecimal (50 * ether)) (float_of_decimal (mkDecimal 0)) = true /\
  change_events (output_of r2) = 0%nat /\
  http_posts (output_of r2) = 0%nat /\
  monitor_of r2 = monitor_of r1 /\
  observed_events CONFIG [sample 0; sample (50 * ether)] (mkMonitor None)
  = [false; false] /\
  expected_events None [mkDecimal 0; mkDecimal (50 * ether)] = [false; true].
Proof. vm_compute. repeat split. Qed.

(** C2 (evaluation at the failing input): with a stored cap of [0.0] and
    a new cap of 50 tokens the cycle is on the change branch, and it ends
    in the handler with [ZeroDivisionError]: no change block, no request,
    no "not applicable" percentage, and the stored cap is not updated. *)
Theorem C2_zero_old_cap_raises_division_error :
  let self := mkMonitor (Some (PyFloat.of_int 0)) in
  let w := sample (50 * ether) in
  cap_changed (mkDecimal (50 * ether)) (PyFloat.of_int 0) = true /\
  check_cap_change hooked w self
  = (inr tt, self,
     header w (mkDecimal (50 * ether))
       ++ [Printed (LCycleError (now_handler w) ZeroDivisionError)]).
Proof. vm_compute. split; reflexivity. Qed.

Lemma change_events_header (w : world) (d : Decimal) :
  change_events (header w d) = 0%nat.
Proof. reflexivity. Qed.

Lemma change_events_changed (cfg : Config) (w : world) (p : float)
    (d : Decimal) :
  change_events
    (header w d ++ change_block w p d :: webhook_output cfg w (event_data w p d))
  = 1%nat.
Proof.
  rewrite change_events_app, change_events_header.
  change (change_block w p d :: ?l) with ([change_block w p d] ++ l).
  rewrite change_events_app, change_events_webhook. reflexivity.
Qed.

(** Two caps that the program does not tell apart are stored as the same
    float. *)
Lemma cap_unchanged_same_float (d d0 : Decimal) :
  0 <= dec_units d -> 0 <= dec_units d0 ->
  cap_changed d (float_of_decimal d0) = false ->
  float_of_decimal d = float_of_decimal d0.
Proof.
  intros Hd Hd0 Hc. unfold cap_changed, PyFloat.neqb in Hc.
  apply Bool.negb_false_iff in Hc.
  apply eqb_nonneg_eq; auto using float_of_decimal_nonneg.
Qed.

(** Samples none of which rounds to the float zero: a change block is
    printed on a cycle exactly when the sampled cap differs from the one
    sampled before ([prev], already stored). *)
Lemma observed_events_from (cfg : Config) (ws : list world) :
  forall (ds : list Decimal) (prev : option Decimal),
  Forall2 (fun w d => cap_read w = inr d) ws ds ->
  Forall (fun d => PyFloat.is_zero (float_of_decimal d) = false) ds ->
  match prev with
  | Some d0 =>
      0 <= dec_units d0 /\ PyFloat.is_zero (float_of_decimal d0) = false
  | None => True
  end ->
  observed_events cfg ws (mkMonitor (option_map float_of_decimal prev))
  = expected_events prev ds.
Proof.
  induction ws as [|w ws IH]; intros ds prev HR HZ HP;
    inversion HR as [|w' d ws' ds' Hd HR']; subst; [reflexivity|].
  inversion HZ as [|d' ds'' Hz HZ']; subst.
  pose proof (cap_read_range w d Hd) as Rd.
  cbn [observed_events expected_events].
  rewrite (check_cap_change_read_ok cfg w d _ Hd).
  destruct prev as [d0|]; cbn [previous_cap option_map].
  - destruct HP as [R0 Z0].
    destruct (cap_changed d (float_of_decimal d0)) eqn:Hc.
    + rewrite Z0. unfold output_of, monitor_of. cbn [fst snd].
      rewrite change_events_changed. f_equal.
      apply (IH ds' (Some d)); auto. split; [lia | assumption].
    + unfold output_of, monitor_of. cbn [fst snd]. f_equal.
      rewrite <- (cap_unchanged_same_float d d0) by (auto; lia).
      apply (IH ds' (Some d)); auto. split; [lia | assumption].
  - unfold output_of, monitor_of. cbn [fst snd]. f_equal.
    apply (IH ds' (Some d)); auto. split; [lia | assumption].
Qed.

(** From the first cycle on, for samples none of which rounds to the
    float zero. *)
Lemma observed_events_from_start (cfg : Config) (ws : list world)
    (ds : list Decimal) :
  Forall2 (fun w d => cap_read w = inr d) ws ds ->
  Forall (fun d => PyFloat.is_zero (float_of_decimal d) = false) ds ->
  observed_events cfg ws (mkMonitor None) = expected_events None ds.
Proof.
  intros HR HZ. exact (observed_events_from cfg ws ds None HR HZ I).
Qed.

(** C3 (counterexample): a stored cap of 1,000,000 tokens and a new cap
    one base unit (10^-18) above it are different decimals, yet the test
    of the program finds no change; the cycle prints no change block and
    leaves the stored cap as it was. *)
Lemma C3_one_unit_apart_not_changed :
  dec_units (mkDecimal (10 ^ 24 + 1)) - dec_units (mkDecimal (10 ^ 24)) = 1 /\
  cap_changed (mkDecimal (10 ^ 24 + 1)) (float_of_decimal (mkDecimal (10 ^ 24)))
  = false /\
  check_cap_change CONFIG (sample (10 ^ 24 + 1))
    (mkMonitor (Some (float_of_decimal (mkDecimal (10 ^ 24)))))
  = (inr tt, mkMonitor (Some (float_of_decimal (mkDecimal (10 ^ 24)))),
     header (sample (10 ^ 24 + 1)) (mkDecimal (10 ^ 24 + 1))).
Proof. vm_compute. repeat split. Qed.

(** C3 (amended): the change decision compares the binary64 float of the
    new cap with the stored float, by exact float equality and with no
    tolerance.  With the float of a cap [d0] stored, a cycle reading [d]
    is classified Changed if and only if the floats of [d] and [d0] are
    different floats.  When they are equal the cycle prints no change
    block and leaves the stored cap untouched; when they differ the
    cycle takes the change branch: it prints the change block, notifies
    and stores the float of [d] (with a stored zero the branch stops at
    the division, see C2). *)
Theorem C3_change_is_float_inequality (cfg : Config) (w : world)
    (d d0 : Decimal) :
  0 <= dec_units d0 ->
  cap_read w = inr d ->
  (cap_changed d (float_of_decimal d0) = true
   <-> float_of_decimal d <> float_of_decimal d0) /\
  (float_of_decimal d = float_of_decimal d0 ->
   check_cap_change cfg w (mkMonitor (Some (float_of_decimal d0)))
   = (inr tt, mkMonitor (Some (float_of_decimal d0)), header w d)) /\
  (float_of_decimal d <> float_of_decimal d0 ->
   PyFloat.is_zero (float_of_decimal d0) = false ->
   check_cap_change cfg w (mkMonitor (Some (float_of_decimal d0)))
   = (inr tt, mkMonitor (Some (float_of_decimal d)),
      header w d ++ change_block w (float_of_decimal d0) d
        :: webhook_output cfg w (event_data w (float_of_decimal d0) d))) /\
  (float_of_decimal d <> float_of_decimal d0 ->
   PyFloat.is_zero (float_of_decimal d0) = true ->
   check_cap_change cfg w (mkMonitor (Some (float_of_decimal d0)))
   = (inr tt, mkMonitor (Some (float_of_decimal d0)),
      header w d
        ++ [Printed (LCycleError (now_handler w) ZeroDivisionError)])) /\
  (PyFloat.is_zero (float_of_decimal d0) = false ->
   (change_events
      (output_of
         (check_cap_change cfg w (mkMonitor (Some (float_of_decimal d0)))))
    = 1%nat
    <-> float_of_decimal d <> float_of_decimal d0)).
Proof.
  intros H0 Hr. pose proof (cap_read_range w d Hr) as Rd.
  assert (cap_changed d (float_of_decimal d0) = true
          <-> float_of_decimal d <> float_of_decimal d0) as Hiff.
  { unfold cap_changed, PyFloat.neqb. rewrite Bool.negb_true_iff.
    rewrite <- Bool.not_true_iff_false.
    rewrite (eqb_nonneg_eq (float_of_decimal d) (float_of_decimal d0))
      by (apply float_of_decimal_nonneg; lia).
    reflexivity. }
  rewrite (check_cap_change_read_ok cfg w d _ Hr). cbn [previous_cap].
  split; [exact Hiff|].
  destruct (cap_changed d (float_of_decimal d0)) eqn:Hc.
  - pose proof (proj1 Hiff eq_refl) as Hne.
    split; [intros E; now contradiction Hne|].
    split; [intros _ Hz; now rewrite Hz|].
    split; [intros _ Hz; now rewrite Hz|].
    intros Hz. rewrite Hz. unfold output_of. cbn [snd].
    rewrite change_events_changed. split; [intros _; exact Hne | reflexivity].
  - assert (float_of_decimal d = float_of_decimal d0) as E.
    { destruct (eqb_nonneg_eq (float_of_decimal d) (float_of_decimal d0))
        as [E _]; try (apply float_of_decimal_nonneg; lia).
      apply E. unfold cap_changed, PyFloat.neqb in Hc.
      now apply Bool.negb_false_iff in Hc. }
    split; [reflexivity|].
    split; [intros Hne; now contradiction Hne|].
    split; [intros Hne; now contradiction Hne|].
    intros _. unfold output_of. cbn [snd]. rewrite change_events_header.
    split; [discriminate | intros Hne; now contradiction Hne].
Qed.

Lemma C3_change_is_float_inequality_witness :
  float_of_decimal (mkDecimal (150 * ether))
  <> float_of_decimal (mkDecimal (100 * ether)) /\
  check_cap_change hooked (sample (150 * ether))
    (mkMonitor (Some (float_of_decimal (mkDecimal (100 * ether)))))
  = (inr tt, mkMonitor (Some (float_of_decimal (mkDecimal (150 * ether)))),
     header (sample (150 * ether)) (mkDecimal (150 * ether))
       ++ change_block (sample (150 * ether))
            (float_of_decimal (mkDecimal (100 * ether)))
            (mkDecimal (150 * ether))
       :: webhook_output hooked (sample (150 * ether))
            (event_data (sample (150 * ether))
               (float_of_decimal (mkDecimal (100 * ether)))
               (mkDecimal (150 * ether)))) /\
  (float_of_decimal (mkDecimal (10 ^ 24 + 1))
   = float_of_decimal (mkDecimal (10 ^ 24)) ->
   check_cap_change hooked (sample (10 ^ 24 + 1))
     (mkMonitor (Some (float_of_decimal (mkDecimal (10 ^ 24)))))
   = (inr tt, mkMonitor (Some (float_of_decimal (mkDecimal (10 ^ 24)))),
      header (sample (10 ^ 24 + 1)) (mkDecimal (10 ^ 24 + 1)))).
Proof.
  assert (float_of_decimal (mkDecimal (150 * ether))
          <> float_of_decimal (mkDecimal (100 * ether))) as Hne
    by (vm_compute; discriminate).
  assert (0 <= dec_units (mkDecimal (100 * ether))) as H100
    by (vm_compute; discriminate).
  assert (0 <= dec_units (mkDecimal (10 ^ 24))) as H24
    by (vm_compute; discriminate).
  split; [exact Hne|]. split.
  - exact (proj1 (proj2 (proj2
      (C3_change_is_float_inequality hooked (sample (150 * ether))
         (mkDecimal (150 * ether)) (mkDecimal (100 * ether)) H100 eq_refl)))
      Hne eq_refl).
  - exact (proj1 (proj2
      (C3_change_is_float_inequality hooked (sample (10 ^ 24 + 1))
         (mkDecimal (10 ^ 24 + 1)) (mkDecimal (10 ^ 24)) H24 eq_refl))).
Defined.

(** C4 (counterexample): the caps of 10^24 and 10^24 + 1 base units are
    different on the wire and as decimals, but the first cycle stores the
    same binary64 float, 1000000.0, for both: the stored cap has lost the
    last unit.  The delta is float arithmetic too: from 10^24 to
    10^24 + 10^9 units it is 9 * 2^-33, not the float of 10^-9. *)
Lemma C4_stored_cap_is_rounded :
  from_wei (10 ^ 24 + 1) = inr (mkDecimal (10 ^ 24 + 1)) /\
  from_wei (10 ^ 24) = inr (mkDecimal (10 ^ 24)) /\
  monitor_of (check_cap_change CONFIG (sample (10 ^ 24 + 1)) (mkMonitor None))
  = mkMonitor (Some (PyFloat.of_int 1000000)) /\
  monitor_of (check_cap_change CONFIG (sample (10 ^ 24)) (mkMonitor None))
  = mkMonitor (Some (PyFloat.of_int 1000000)) /\
  PyFloat.sub (float_of_decimal (mkDecimal (10 ^ 24 + 10 ^ 9)))
              (float_of_decimal (mkDecimal (10 ^ 24)))
  = PyFloat.of_ratio 9 (2 ^ 33) /\
  PyFloat.eqb (PyFloat.of_ratio 9 (2 ^ 33))
              (float_of_decimal (mkDecimal (10 ^ 9))) = false.
Proof. vm_compute. repeat split. Qed.

(** C4 (amended): for every on-wire unsigned 256-bit value the conversion
    to a decimal by [from_wei] is exact (the decimal keeps every base
    unit), but the cap is stored as the binary64 float nearest to that
    decimal, which is always a finite float, and the delta of a change is
    the float difference of the new float and the stored one. *)
Theorem C4_exact_decimal_float_storage (cfg : Config) (w : world) (v : Z)
    (p : float) :
  0 <= v <= MAX_WEI ->
  maxDepositAmount w = Returns v ->
  PyFloat.is_zero p = false ->
  cap_changed (mkDecimal v) p = true ->
  from_wei v = inr (mkDecimal v) /\
  monitor_of (check_cap_change cfg w (mkMonitor None))
  = mkMonitor (Some (PyFloat.of_ratio v (10 ^ 18))) /\
  PyFloat.is_finite (PyFloat.of_ratio v (10 ^ 18)) = true /\
  monitor_of (check_cap_change cfg w (mkMonitor (Some p)))
  = mkMonitor (Some (PyFloat.of_ratio v (10 ^ 18))) /\
  In (Printed (LChangeBlock p (mkDecimal v)
               (PyFloat.gtb (PyFloat.sub (PyFloat.of_ratio v (10 ^ 18)) p)
                  (PyFloat.of_int 0))
               (PyFloat.sub (PyFloat.of_ratio v (10 ^ 18)) p)
               (change_percent (event_data w p (mkDecimal v)))
               (amount_read (totalAssets w)) (now w)))
     (output_of (check_cap_change cfg w (mkMonitor (Some p)))).
Proof.
  intros Hv Hw Hz Hc.
  pose proof (from_wei_in_range v Hv) as Hf.
  assert (cap_read w = inr (mkDecimal v)) as Hr
    by (unfold cap_read; now rewrite Hw).
  split; [exact Hf|].
  rewrite !(check_cap_change_read_ok cfg w _ _ Hr). cbn [previous_cap].
  rewrite Hc, Hz. unfold monitor_of, output_of. cbn [fst snd].
  split; [reflexivity|]. split.
  - apply (float_of_decimal_finite (mkDecimal v)). exact Hv.
  - split; [reflexivity|]. apply in_or_app. right. left. reflexivity.
Qed.

Lemma C4_exact_decimal_float_storage_witness :
  from_wei (150 * ether) = inr (mkDecimal (150 * ether)) /\
  monitor_of (check_cap_change CONFIG (sample (150 * ether)) (mkMonitor None))
  = mkMonitor (Some (PyFloat.of_ratio (150 * ether) (10 ^ 18))) /\
  PyFloat.is_finite (PyFloat.of_ratio (150 * ether) (10 ^ 18)) = true /\
  monitor_of (check_cap_change CONFIG (sample (150 * ether))
                (mkMonitor (Some (PyFloat.of_int 100))))
  = mkMonitor (Some (PyFloat.of_ratio (150 * ether) (10 ^ 18))) /\
  In (Printed (LChangeBlock (PyFloat.of_int 100) (mkDecimal (150 * ether))
               (PyFloat.gtb
                  (PyFloat.sub (PyFloat.of_ratio (150 * ether) (10 ^ 18))
                     (PyFloat.of_int 100))
                  (PyFloat.of_int 0))
               (PyFloat.sub (PyFloat.of_ratio (150 * ether) (10 ^ 18))
                  (PyFloat.of_int 100))
               (change_percent
                  (event_data (sample (150 * ether)) (PyFloat.of_int 100)
                     (mkDecimal (150 * ether))))
               (amount_read (totalAssets (sample (150 * ether))))
               (now (sample (150 * ether)))))
     (output_of (check_cap_change CONFIG (sample (150 * ether))
                   (mkMonitor (Some (PyFloat.of_int 100))))).
Proof.
  apply (C4_exact_decimal_float_storage CONFIG (sample (150 * ether))
           (150 * ether) (PyFloat.of_int 100)).
  - vm_compute. split; discriminate.
  - reflexivity.
  - reflexivity.
  - vm_compute. reflexivity.
Defined.

(** C5: when the read of the deposit cap fails (the call raises, or
    [from_wei] refuses the value), the cycle stops there: it prints the
    fetch error and one error line stamped with the time of the handler,
    no change block and no request; the stored cap is what it was; the
    cycle returns normally and the following cycles run from that same
    state. *)
Theorem C5_failed_cap_read_aborts_cycle (cfg : Config) (w : world)
    (ws : list world) (self : VaultCapMonitor) (e : exn) :
  cap_read w = inl e ->
  check_cap_change cfg w self
  = (inr tt, self,
     [Printed (LErrorFetchingCap e);
      Printed (LCycleError (now_handler w) unable_to_retrieve)]) /\
  change_events (output_of (check_cap_change cfg w self)) = 0%nat /\
  http_posts (output_of (check_cap_change cfg w self)) = 0%nat /\
  monitor_of (check_cap_change cfg w self) = self /\
  cycles cfg (w :: ws) self
  = (result_of (cycles cfg ws self), monitor_of (cycles cfg ws self),
     read_error_lines w e ++ output_of (cycles cfg ws self)).
Proof.
  intros H. rewrite cycles_cons.
  rewrite (check_cap_change_read_error cfg w e self H).
  repeat split.
Qed.

Lemma C5_failed_cap_read_aborts_cycle_witness :
  cap_read rpc_down = inl (ContractCallError "rpc down") /\
  check_cap_change CONFIG rpc_down (mkMonitor (Some (PyFloat.of_int 100)))
  = (inr tt, mkMonitor (Some (PyFloat.of_int 100)),
     [Printed (LErrorFetchingCap (ContractCallError "rpc down"));
      Printed (LCycleError "12:01" unable_to_retrieve)]) /\
  monitor_of (cycles CONFIG [rpc_down; sample (150 * ether)]
                (mkMonitor (Some (PyFloat.of_int 100))))
  = mkMonitor (Some (PyFloat.of_int 150)).
Proof.
  pose proof (C5_failed_cap_read_aborts_cycle CONFIG rpc_down
                [sample (150 * ether)] (mkMonitor (Some (PyFloat.of_int 100)))
                (ContractCallError "rpc down") eq_refl)
    as (R & _ & _ & _ & L).
  split; [reflexivity|]. split; [exact R|].
  rewrite L. reflexivity.
Defined.

(** C6 (counterexample): the webhook answers 302, a response that is
    not 2xx.  [response.ok] is true for it, so the notifier prints the
    success line and no error line; the cycle stores the new cap. *)
Lemma C6_redirect_logged_as_success :
  post redirected = Response true 302 /\
  output_of (check_cap_change hooked redirected
               (mkMonitor (Some (PyFloat.of_int 100))))
  = header redirected (mkDecimal (150 * ether))
      ++ [change_block redirected (PyFloat.of_int 100)
            (mkDecimal (150 * ether));
          HttpPost "http://hook"
            (event_data redirected (PyFloat.of_int 100)
               (mkDecimal (150 * ether)));
          Printed LNotificationSent] /\
  monitor_of (check_cap_change hooked redirected
                (mkMonitor (Some (PyFloat.of_int 100))))
  = mkMonitor (Some (PyFloat.of_int 150)).
Proof. vm_compute. repeat split. Qed.

(** C6 (amended): the notifier never raises and never touches the
    monitor: with no webhook configured it does nothing; otherwise it
    makes one request and prints one line.  The line is the error line
    when the request raises, the status error line when the response is
    not [ok], that is when its status is in 400..599, and the success
    line for every other response, a non-2xx one below 400 included.  A
    cycle that has built its change event (change detected, stored cap
    not zero) therefore always goes on to store the new cap, whatever
    the outcome of the request. *)
Theorem C6_notifier_failures_are_contained (cfg : Config) (w : world)
    (data : change_data) (self : VaultCapMonitor) (d : Decimal) (p : float) :
  cap_read w = inr d ->
  previous_cap self = Some p ->
  cap_changed d p = true ->
  PyFloat.is_zero p = false ->
  result_of (send_webhook_notification cfg w data self) = inr tt /\
  monitor_of (send_webhook_notification cfg w data self) = self /\
  output_of (send_webhook_notification cfg w data self)
  = match webhook_target cfg with
    | None => []
    | Some url =>
        [HttpPost url data;
         Printed match post w with
               | Response true _ => LNotificationSent
               | Response false status_code => LNotificationError status_code
               | PostRaises e => LErrorSendingNotification e
               end]
    end /\
  result_of (check_cap_change cfg w self) = inr tt /\
  monitor_of (check_cap_change cfg w self)
  = mkMonitor (Some (float_of_decimal d)) /\
  change_events (output_of (check_cap_change cfg w self)) = 1%nat /\
  (forall status_code : Z,
     post w = http_response status_code ->
     (requests_ok status_code = false <-> 400 <= status_code < 600) /\
     output_of (send_webhook_notification cfg w data self)
     = match webhook_target cfg with
       | None => []
       | Some url =>
           [HttpPost url data;
            Printed (if (400 <=? status_code) && (status_code <? 600)
                     then LNotificationError status_code
                     else LNotificationSent)]
       end).
Proof.
  intros Hr Hp Hc Hz.
  rewrite send_webhook_notification_spec.
  rewrite (check_cap_change_read_ok cfg w d self Hr), Hp, Hc, Hz.
  unfold result_of, monitor_of, output_of. cbn [fst snd].
  rewrite change_events_changed.
  do 6 (split; [reflexivity|]).
  intros status_code Hpost. split.
  - unfold requests_ok. rewrite Bool.negb_false_iff, Bool.andb_true_iff.
    rewrite Z.leb_le, Z.ltb_lt. reflexivity.
  - unfold webhook_output. rewrite Hpost. unfold http_response, requests_ok.
    destruct ((400 <=? status_code) && (status_code <? 600)); reflexivity.
Qed.

Lemma C6_notifier_failures_are_contained_witness :
  result_of (check_cap_change hooked (sample (150 * ether))
               (mkMonitor (Some (PyFloat.of_int 100)))) = inr tt /\
  monitor_of (check_cap_change hooked (sample (150 * ether))
                (mkMonitor (Some (PyFloat.of_int 100))))
  = mkMonitor (Some (PyFloat.of_int 150)) /\
  post (sample (150 * ether)) = PostRaises (RequestException "timeout") /\
  http_posts (output_of (check_cap_change hooked (sample (150 * ether))
                           (mkMonitor (Some (PyFloat.of_int 100))))) = 1%nat.
Proof.
  pose proof (C6_notifier_failures_are_contained hooked (sample (150 * ether))
                (event_data (sample (150 * ether)) (PyFloat.of_int 100)
                   (mkDecimal (150 * ether)))
                (mkMonitor (Some (PyFloat.of_int 100)))
                (mkDecimal (150 * ether)) (PyFloat.of_int 100)
                eq_refl eq_refl eq_refl eq_refl)
    as (_ & _ & _ & R & S & _ & _).
  split; [exact R|]. split; [exact S|]. split; reflexivity.
Defined.



(** C8 (counterexample): with the connection check failing, the script
    ends with exit status zero. *)
Lemma C8_connection_failure_exit_status_zero :
  fst (script CONFIG false [sample (150 * ether)]) = 0.
Proof. reflexivity. Qed.

(** C8 (amended): if the connection check fails at construction, the
    constructor raises, [main] catches the exception, prints one
    "Fatal error" line and returns: no banner, no cycle, no request, and
    the process ends with the default exit status, zero. *)
Theorem C8_connection_failure_stops_before_monitoring (cfg : Config)
    (ws : list world) :
  init false = inl unable_to_connect /\
  main cfg false ws = (inr tt, [Printed (LFatalError unable_to_connect)]) /\
  script cfg false ws = (0, [Printed (LFatalError unable_to_connect)]).
Proof. repeat split. Qed.

(** A float that is not NaN equals itself. *)
Lemma eqb_nonneg_refl (a : float) :
  PyFloat.nonneg a = true -> PyFloat.eqb a a = true.
Proof. intros H. now apply eqb_nonneg_eq. Qed.

(** A monitor is settled on the cap [d] when a cycle reading [d] cannot
    get past the change test and the division. *)
Lemma settled_cycle (cfg : Config) (w : world) (self : VaultCapMonitor)
    (d : Decimal) :
  cap_read w = inr d ->
  settled d self = true ->
  monitor_of (check_cap_change cfg w self) = self /\
  change_events (output_of (check_cap_change cfg w self)) = 0%nat /\
  http_posts (output_of (check_cap_change cfg w self)) = 0%nat.
Proof.
  intros Hr Hs. rewrite (check_cap_change_read_ok cfg w d self Hr).
  unfold settled in Hs. destruct (previous_cap self) as [p|]; [|discriminate].
  destruct (cap_changed d p); [|repeat split].
  simpl in Hs. rewrite Hs. repeat split.
Qed.

Lemma settled_after_cycle (cfg : Config) (w : world) (self : VaultCapMonitor)
    (d : Decimal) :
  cap_read w = inr d ->
  settled d (monitor_of (check_cap_change cfg w self)) = true.
Proof.
  intros Hr. pose proof (cap_read_range w d Hr) as Rd.
  assert (cap_changed d (float_of_decimal d) = false) as Hrefl.
  { unfold cap_changed, PyFloat.neqb.
    rewrite eqb_nonneg_refl; [reflexivity|].
    apply float_of_decimal_nonneg. lia. }
  rewrite (check_cap_change_read_ok cfg w d self Hr).
  unfold settled, monitor_of.
  destruct (previous_cap self) as [p|] eqn:Hp; cbn [fst snd previous_cap].
  - destruct (cap_changed d p) eqn:Hc.
    + destruct (PyFloat.is_zero p) eqn:Hz; cbn [fst snd previous_cap].
      * now rewrite Hp, Hc, Hz.
      * now rewrite Hrefl.
    + cbn [fst snd]. now rewrite Hp, Hc.
  - now rewrite Hrefl.
Qed.

Lemma settled_cycles (cfg : Config) (d : Decimal) (ws : list world) :
  forall self : VaultCapMonitor,
  Forall (fun w => cap_read w = inr d) ws ->
  settled d self = true ->
  monitor_of (cycles cfg ws self) = self /\
  change_events (output_of (cycles cfg ws self)) = 0%nat /\
  http_posts (output_of (cycles cfg ws self)) = 0%nat.
Proof.
  induction ws as [|w ws IH]; intros self HF Hs; [repeat split|].
  inversion HF as [|w' ws' Hr HF']; subst.
  destruct (settled_cycle cfg w self d Hr Hs) as (M & E & P).
  rewrite cycles_cons_monitor, cycles_cons_output.
  rewrite change_events_app, http_posts_app, M, E, P.
  destruct (IH self HF' Hs) as (M' & E' & P').
  now rewrite M', E', P'.
Qed.

Lemma change_events_cycle_le_1 (cfg : Config) (w : world)
    (self : VaultCapMonitor) :
  (change_events (output_of (check_cap_change cfg w self)) <= 1)%nat.
Proof.
  destruct (cap_read w) as [e|d] eqn:Hr.
  - rewrite (check_cap_change_read_error cfg w e self Hr).
    apply Nat.le_0_l.
  - rewrite (check_cap_change_read_ok cfg w d self Hr).
    destruct (previous_cap self) as [p|]; [|apply Nat.le_0_l].
    destruct (cap_changed d p); [|apply Nat.le_0_l].
    destruct (PyFloat.is_zero p); [apply Nat.le_0_l|].
    unfold output_of. cbn [snd]. rewrite change_events_changed.
    apply Nat.le_refl.
Qed.

(** C9: let a cycle read the cap [d] from any state, and let the cycles
    after it go on reading [d].  The whole run prints at most one change
    block; the cycles after the first leave the stored cap as the first
    cycle left it, print no change block and make no request. *)
Theorem C9_repeated_cap_reports_once (cfg : Config) (w : world)
    (ws : list world) (self : VaultCapMonitor) (d : Decimal) :
  cap_read w = inr d ->
  Forall (fun w' => cap_read w' = inr d) ws ->
  (change_events (output_of (cycles cfg (w :: ws) self)) <= 1)%nat /\
  monitor_of (cycles cfg ws (monitor_of (check_cap_change cfg w self)))
  = monitor_of (check_cap_change cfg w self) /\
  change_events
    (output_of (cycles cfg ws (monitor_of (check_cap_change cfg w self))))
  = 0%nat /\
  http_posts
    (output_of (cycles cfg ws (monitor_of (check_cap_change cfg w self))))
  = 0%nat.
Proof.
  intros Hr HF.
  destruct (settled_cycles cfg d ws _ HF (settled_after_cycle cfg w self d Hr))
    as (M & E & P).
  split; [|now repeat split].
  rewrite cycles_cons_output, change_events_app, E.
  pose proof (change_events_cycle_le_1 cfg w self). lia.
Qed.

Lemma C9_repeated_cap_reports_once_witness :
  change_events
    (output_of (cycles hooked
                  [sample (150 * ether); sample (150 * ether);
                   sample (150 * ether)]
                  (mkMonitor (Some (PyFloat.of_int 100))))) = 1%nat /\
  monitor_of
    (cycles hooked [sample (150 * ether); sample (150 * ether)]
       (monitor_of (check_cap_change hooked (sample (150 * ether))
                      (mkMonitor (Some (PyFloat.of_int 100))))))
  = mkMonitor (Some (PyFloat.of_int 150)) /\
  change_events
    (output_of
       (cycles hooked [sample (150 * ether); sample (150 * ether)]
          (monitor_of (check_cap_change hooked (sample (150 * ether))
                         (mkMonitor (Some (PyFloat.of_int 100)))))))
  = 0%nat.
Proof.
  assert (Forall (fun w' => cap_read w' = inr (mkDecimal (150 * ether)))
            [sample (150 * ether); sample (150 * ether)]) as HF
    by (repeat constructor).
  pose proof (C9_repeated_cap_reports_once hooked (sample (150 * ether))
                [sample (150 * ether); sample (150 * ether)]
                (mkMonitor (Some (PyFloat.of_int 100)))
                (mkDecimal (150 * ether)) eq_refl HF)
    as (_ & M & E & _).
  split; [reflexivity|]. split; [rewrite M; reflexivity | exact E].
Defined.

(** One cycle keeps the shape of the stored cap. *)
Lemma unset_or_finite_cycle (cfg : Config) (w : world)
    (self : VaultCapMonitor) :
  unset_or_finite self = true ->
  unset_or_finite (monitor_of (check_cap_change cfg w self)) = true.
Proof.
  intros Hs. destruct (cap_read w) as [e|d] eqn:Hr.
  - now rewrite (check_cap_change_read_error cfg w e self Hr).
  - pose proof (float_of_decimal_finite d (cap_read_range w d Hr)) as Fd.
    rewrite (check_cap_change_read_ok cfg w d self Hr).
    destruct (previous_cap self) as [p|]; [|exact Fd].
    destruct (cap_changed d p); [|exact Hs].
    destruct (PyFloat.is_zero p); [exact Hs | exact Fd].
Qed.

Lemma unset_or_finite_cycles (cfg : Config) (ws : list world) :
  forall self : VaultCapMonitor,
  unset_or_finite self = true ->
  unset_or_finite (monitor_of (cycles cfg ws self)) = true.
Proof.
  induction ws as [|w ws IH]; intros self Hs; [exact Hs|].
  rewrite cycles_cons_monitor. apply IH. now apply unset_or_finite_cycle.
Qed.

(** C10: the stored cap is unset at construction; after any number of
    cycles it is unset or a finite float; a cycle never unsets it; a
    cycle changes it only in the first-sample branch or after a detected
    change whose event was built, and then to the float of the cap just
    read; the optional getters, the notifier and a cycle whose cap read
    failed leave it as it was. *)
Theorem C10_stored_cap_shape (cfg : Config) :
  init true = inr (mkMonitor None, [Printed LConnected]) /\
  (forall ws : list world,
     unset_or_finite (monitor_of (cycles cfg ws (mkMonitor None))) = true) /\
  (forall (w : world) (self : VaultCapMonitor),
     previous_cap self <> None ->
     previous_cap (monitor_of (check_cap_change cfg w self)) <> None) /\
  (forall (w : world) (self : VaultCapMonitor),
     monitor_of (check_cap_change cfg w self) <> self ->
     exists d : Decimal,
       cap_read w = inr d /\
       monitor_of (check_cap_change cfg w self)
       = mkMonitor (Some (float_of_decimal d)) /\
       (previous_cap self = None \/
        exists p : float,
          previous_cap self = Some p /\ cap_changed d p = true /\
          PyFloat.is_zero p = false)) /\
  (forall (w : world) (self : VaultCapMonitor) (data : change_data),
     monitor_of (get_total_assets w self) = self /\
     monitor_of (get_max_token_supply w self) = self /\
     monitor_of (send_webhook_notification cfg w data self) = self) /\
  (forall (w : world) (self : VaultCapMonitor) (e : exn),
     cap_read w = inl e ->
     monitor_of (check_cap_change cfg w self) = self).
Proof.
  split; [reflexivity|]. split; [|split; [|split; [|split]]].
  - intros ws. now apply unset_or_finite_cycles.
  - intros w self Hp. destruct (cap_read w) as [e|d] eqn:Hr.
    + now rewrite (check_cap_change_read_error cfg w e self Hr).
    + rewrite (check_cap_change_read_ok cfg w d self Hr).
      destruct (previous_cap self) as [p|] eqn:E; [|discriminate].
      destruct (cap_changed d p); [|cbn [monitor_of fst snd]; congruence].
      destruct (PyFloat.is_zero p); cbn [monitor_of fst snd previous_cap];
        congruence.
  - intros w self Hne. destruct (cap_read w) as [e|d] eqn:Hr.
    + rewrite (check_cap_change_read_error cfg w e self Hr) in Hne.
      now contradiction Hne.
    + exists d. split; [reflexivity|].
      rewrite (check_cap_change_read_ok cfg w d self Hr) in Hne |- *.
      destruct (previous_cap self) as [p|] eqn:E.
      * destruct (cap_changed d p) eqn:Hc; [|now contradiction Hne].
        destruct (PyFloat.is_zero p) eqn:Hz; [now contradiction Hne|].
        split; [reflexivity|]. right. now exists p.
      * split; [reflexivity | now left].
  - intros w self data.
    now rewrite get_total_assets_spec, get_max_token_supply_spec,
      send_webhook_notification_spec.
  - intros w self e Hr.
    now rewrite (check_cap_change_read_error cfg w e self Hr).
Qed.

(** * More on rounding: a positive cap is never stored as zero

    A right shift by [p] divides the mantissa by [2^p]; a shift that
    leaves at least one digit keeps a positive mantissa positive. *)

Section FloatZero.

Lemma shr_1_half (mrs : shr_record) :
  0 <= shr_m mrs -> shr_m (shr_1 mrs) = shr_m mrs / 2.
Proof.
  destruct mrs as [m r s]; simpl. intros H.
  destruct m as [|p|p]; try lia; [reflexivity|].
  destruct p as [p|p|]; simpl.
  - rewrite Pos2Z.inj_xI. apply Z.div_unique with (r := 1); lia.
  - rewrite Pos2Z.inj_xO. apply Z.div_unique with (r := 0); lia.
  - reflexivity.
Qed.

Lemma iter_shr_1_exact (p : positive) : forall mrs,
  0 <= shr_m mrs ->
  shr_m (iter_pos shr_1 p mrs) = shr_m mrs / 2 ^ Zpos p.
Proof.
  induction p as [p IH|p IH|]; intros mrs H; simpl iter_pos.
  - pose proof (shr_1_bounds mrs H) as [B1 _].
    pose proof (iter_shr_1_bounds p _ B1) as [B2 _].
    rewrite IH, IH, shr_1_half by assumption.
    rewrite !Z.div_div by lia.
    f_equal. rewrite (Pos2Z.inj_xI p).
    replace (2 * Z.pos p + 1) with (1 + Z.pos p + Z.pos p) by lia.
    rewrite !Z.pow_add_r by lia. lia.
  - pose proof (iter_shr_1_bounds p _ H) as [B2 _].
    rewrite IH, IH by assumption.
    rewrite !Z.div_div by lia.
    f_equal. rewrite (Pos2Z.inj_xO p).
    replace (2 * Z.pos p) with (Z.pos p + Z.pos p) by lia.
    rewrite !Z.pow_add_r by lia. lia.
  - now apply shr_1_half.
Qed.

Lemma Zdigits2_lower (m : Z) : 0 < m -> 2 ^ (Zdigits2 m - 1) <= m.
Proof.
  intros H. destruct m as [|p|p]; try lia.
  rewrite Zdigits2_log2. replace (Z.log2 (Z.pos p) + 1 - 1) with (Z.log2 (Z.pos p)) by lia.
  apply Z.log2_spec. lia.
Qed.

Lemma Zdigits2_pos (m : Z) : 0 < m -> 0 < Zdigits2 m.
Proof. destruct m; simpl; lia. Qed.

Lemma shr_fexp_pos (m e : Z) (l : location) :
  0 < m -> -1073 <= e ->
  0 < shr_m (fst (shr_fexp PyFloat.prec PyFloat.emax m e l)).
Proof.
  intros Hm He. unfold shr_fexp, shr.
  pose proof (Zdigits2_pos m Hm) as Dp.
  pose proof (Zdigits2_lower m Hm) as Dl.
  destruct (fexp PyFloat.prec PyFloat.emax (Zdigits2 m + e) - e) as [|p|p] eqn:Hs;
    cbn [fst]; rewrite ?shr_m_of_loc; try lia.
  rewrite iter_shr_1_exact by (rewrite shr_m_of_loc; lia).
  rewrite shr_m_of_loc.
  assert (Z.pos p <= Zdigits2 m - 1) as Hp.
  { unfold fexp, emin, PyFloat.prec, PyFloat.emax in Hs. lia. }
  apply Z.div_str_pos. split; [apply Z.pow_pos_nonneg; lia|].
  apply Z.le_trans with (2 ^ (Zdigits2 m - 1)); [|exact Dl].
  apply Z.pow_le_mono_r; lia.
Qed.

Lemma binary_round_aux_not_zero (m e : Z) (l : location) :
  0 < m -> -1073 <= e ->
  PyFloat.is_zero (binary_round_aux PyFloat.prec PyFloat.emax false m e l)
  = false.
Proof.
  intros Hm He. unfold binary_round_aux.
  pose proof (shr_fexp_pos m e l Hm He) as P1.
  pose proof (shr_fexp_bounds m e l (Z.lt_le_incl _ _ Hm)) as [_ E1].
  destruct (shr_fexp PyFloat.prec PyFloat.emax m e l) as [mrs' e'].
  cbn [fst snd] in P1, E1.
  pose proof (round_nearest_even_bounds (shr_m mrs') (loc_of_shr_record mrs'))
    as R.
  set (m1 := round_nearest_even (shr_m mrs') (loc_of_shr_record mrs')) in *.
  assert (0 < m1) as R0 by lia.
  assert (-1073 <= e') as He' by lia.
  pose proof (shr_fexp_pos m1 e' loc_Exact R0 He') as P2.
  destruct (shr_fexp PyFloat.prec PyFloat.emax m1 e' loc_Exact) as [mrs'' e''].
  cbn [fst] in P2.
  destruct (shr_m mrs'') as [|p|p]; try lia.
  destruct (e'' <=? PyFloat.emax - PyFloat.prec); reflexivity.
Qed.

Lemma float_of_decimal_not_zero (d : Decimal) :
  0 < dec_units d -> PyFloat.is_zero (float_of_decimal d) = false.
Proof.
  intros H. unfold float_of_decimal, PyFloat.of_ratio, SFdiv_core_binary.
  change (Zdigits2 ether) with 60.
  set (n := dec_units d) in *.
  set (e' := Z.min _ _).
  pose proof (Zdigits2_pos n H) as Dp.
  pose proof (Zdigits2_lower n H) as Dl.
  assert (e' = Z.min (Zdigits2 n - 113) 0) as He'.
  { unfold e', fexp, emin, PyFloat.prec, PyFloat.emax. lia. }
  set (m' := match 0 - 0 - e' with
             | 0 => n | Z.pos _ => Z.shiftl n (0 - 0 - e') | Z.neg _ => 0 end).
  assert (2 ^ 112 <= m') as Hm'.
  { unfold m'. destruct (0 - 0 - e') as [|p|p] eqn:Hs.
    - apply Z.le_trans with (2 ^ (Zdigits2 n - 1)); [|exact Dl].
      apply Z.pow_le_mono_r; lia.
    - rewrite Z.shiftl_mul_pow2 by lia.
      assert (Z.pos p = 113 - Zdigits2 n) as -> by lia.
      replace (2 ^ 112) with (2 ^ (Zdigits2 n - 1) * 2 ^ (113 - Zdigits2 n)).
      + apply Z.mul_le_mono_nonneg_r; [apply Z.pow_nonneg; lia | exact Dl].
      + rewrite <- Z.pow_add_r by lia. f_equal. lia.
    - lia. }
  clearbody m'.
  pose proof (Z.div_eucl_eq m' ether ltac:(discriminate)) as Heq.
  pose proof (Z.mod_pos_bound m' ether ltac:(reflexivity)) as Hr.
  unfold Z.modulo in Hr.
  destruct (Z.div_eucl m' ether) as [q r].
  apply binary_round_aux_not_zero; [|lia].
  unfold ether in *. change (10 ^ 18) with 1000000000000000000 in *.
  change (2 ^ 112) with 5192296858534827628530496329220096 in Hm'. nia.
Qed.

End FloatZero.

(** * Whole runs *)

Section RunFacts.

Variable cfg : Config.

Lemma count_if_app (f : output -> bool) (a b : list output) :
  count_if f (a ++ b) = (count_if f a + count_if f b)%nat.
Proof. unfold count_if. now rewrite filter_app, length_app. Qed.

Lemma start_output (ws : list world) (self : VaultCapMonitor) :
  start cfg ws self
  = (inr tt, monitor_of (cycles cfg ws self),
     Printed (LBanner cfg) :: output_of (cycles cfg ws self)).
Proof.
  pose proof (cycles_returns cfg ws self) as R.
  unfold start, bind, print, emit, result_of, monitor_of, output_of in *.
  destruct (cycles cfg ws self) as [[r s] o]. cbn [fst snd] in *.
  subst r. reflexivity.
Qed.

Lemma start_output_of (ws : list world) (self : VaultCapMonitor) :
  output_of (start cfg ws self)
  = [Printed (LBanner cfg)] ++ output_of (cycles cfg ws self).
Proof. rewrite start_output. reflexivity. Qed.

Lemma start_monitor_of (ws : list world) (self : VaultCapMonitor) :
  monitor_of (start cfg ws self) = monitor_of (cycles cfg ws self).
Proof. rewrite start_output. reflexivity. Qed.

(** The output of one cycle, by cases. *)
Lemma cycle_output_cases (w : world) (self : VaultCapMonitor) :
  (exists e, cap_read w = inl e /\
     output_of (check_cap_change cfg w self) = read_error_lines w e) \/
  (exists d, cap_read w = inr d /\
     (output_of (check_cap_change cfg w self) = header w d
      \/ output_of (check_cap_change cfg w self)
         = header w d ++ [Printed (LInitialCap d)]
      \/ output_of (check_cap_change cfg w self)
         = header w d
             ++ [Printed (LCycleError (now_handler w) ZeroDivisionError)]
      \/ exists p,
           output_of (check_cap_change cfg w self)
           = header w d ++ change_block w p d
               :: webhook_output cfg w (event_data w p d))).
Proof.
  destruct (cap_read w) as [e|d] eqn:Hr.
  - left. exists e. split; [reflexivity|].
    now rewrite (check_cap_change_read_error cfg w e self Hr).
  - right. exists d. split; [reflexivity|].
    rewrite (check_cap_change_read_ok cfg w d self Hr).
    destruct (previous_cap self) as [p|]; [|right; left; reflexivity].
    destruct (cap_changed d p); [|left; reflexivity].
    destruct (PyFloat.is_zero p).
    + right; right; left; reflexivity.
    + right; right; right. now exists p.
Qed.

Lemma http_posts_webhook (w : world) (data : change_data) :
  http_posts (webhook_output cfg w data)
  = match webhook_target cfg with None => 0%nat | Some _ => 1%nat end.
Proof.
  unfold webhook_output. destruct (webhook_target cfg); reflexivity.
Qed.

Lemma http_posts_cycle (w : world) (self : VaultCapMonitor) :
  http_posts (output_of (check_cap_change cfg w self))
  = match webhook_target cfg with
    | None => 0%nat
    | Some _ => change_events (output_of (check_cap_change cfg w self))
    end.
Proof.
  destruct (cycle_output_cases w self)
    as [(e & _ & ->)|(d & _ & [->|[->|[->|(p & ->)]]])];
    try (destruct (webhook_target cfg); reflexivity).
  rewrite change_events_changed.
  change (change_block w p d :: ?l) with ([change_block w p d] ++ l).
  rewrite !http_posts_app, http_posts_webhook.
  destruct (webhook_target cfg); reflexivity.
Qed.

Lemma http_posts_cycles (ws : list world) : forall self,
  http_posts (output_of (cycles cfg ws self))
  = match webhook_target cfg with
    | None => 0%nat
    | Some _ => change_events (output_of (cycles cfg ws self))
    end.
Proof.
  induction ws as [|w ws IH]; intros self.
  - destruct (webhook_target cfg); reflexivity.
  - rewrite cycles_cons_output, http_posts_app, change_events_app.
    rewrite http_posts_cycle, IH.
    destruct (webhook_target cfg); reflexivity.
Qed.

Lemma posts_to_webhook (url : string) (w : world) (data : change_data) :
  webhook_target cfg = Some url ->
  Forall (posts_to url) (webhook_output cfg w data).
Proof.
  intros H. unfold webhook_output. rewrite H.
  repeat constructor.
Qed.

Lemma posts_to_cycle (url : string) (w : world) (self : VaultCapMonitor) :
  webhook_target cfg = Some url ->
  Forall (posts_to url) (output_of (check_cap_change cfg w self)).
Proof.
  intros H.
  destruct (cycle_output_cases w self)
    as [(e & _ & ->)|(d & _ & [->|[->|[->|(p & ->)]]])];
    try solve [repeat constructor].
  apply Forall_app. split; [repeat constructor|].
  constructor; [exact I|]. now apply posts_to_webhook.
Qed.

Lemma posts_to_cycles (url : string) (ws : list world) : forall self,
  webhook_target cfg = Some url ->
  Forall (posts_to url) (output_of (cycles cfg ws self)).
Proof.
  induction ws as [|w ws IH]; intros self H; [constructor|].
  rewrite cycles_cons_output. apply Forall_app.
  split; [now apply posts_to_cycle | now apply IH].
Qed.

End RunFacts.

(** X1: with no webhook configured ([WEBHOOK_URL] is [None] or the empty
    string, as in the [CONFIG] of the source), a run of any length from
    any state makes no HTTP request, whatever changes it reports. *)
Theorem X1_no_webhook_no_request (cfg : Config) (ws : list world)
    (self : VaultCapMonitor) :
  webhook_target cfg = None ->
  http_posts (output_of (start cfg ws self)) = 0%nat.
Proof.
  intros H.
  rewrite start_output_of, http_posts_app, http_posts_cycles, H.
  reflexivity.
Qed.

Lemma X1_no_webhook_no_request_witness :
  webhook_target CONFIG = None /\
  change_events
    (output_of (start CONFIG [sample (100 * ether); sample (150 * ether)]
                  (mkMonitor None))) = 1%nat /\
  http_posts
    (output_of (start CONFIG [sample (100 * ether); sample (150 * ether)]
                  (mkMonitor None))) = 0%nat.
Proof.
  split; [reflexivity|]. split; [reflexivity|].
  apply (X1_no_webhook_no_request CONFIG
           [sample (100 * ether); sample (150 * ether)] (mkMonitor None)).
  reflexivity.
Defined.

(** X2: with a webhook configured, a run makes exactly one HTTP request
    per change block it prints, each to the configured URL: a request is
    never repeated after a failure and never made without a change. *)
Theorem X2_one_request_per_change_event (cfg : Config) (url : string)
    (ws : list world) (self : VaultCapMonitor) :
  webhook_target cfg = Some url ->
  http_posts (output_of (start cfg ws self))
  = change_events (output_of (start cfg ws self)) /\
  Forall (posts_to url) (output_of (start cfg ws self)).
Proof.
  intros H.
  rewrite start_output_of, http_posts_app, change_events_app.
  rewrite http_posts_cycles, H.
  split; [reflexivity|].
  apply Forall_app. split; [repeat constructor | now apply posts_to_cycles].
Qed.

Lemma X2_one_request_per_change_event_witness :
  webhook_target hooked = Some "http://hook" /\
  post (sample (150 * ether)) = PostRaises (RequestException "timeout") /\
  http_posts
    (output_of (start hooked
                  [sample (100 * ether); sample (150 * ether);
                   sample (150 * ether); sample (90 * ether)]
                  (mkMonitor None))) = 2%nat.
Proof.
  split; [reflexivity|]. split; [reflexivity|].
  rewrite (proj1 (X2_one_request_per_change_event hooked "http://hook"
                    [sample (100 * ether); sample (150 * ether);
                     sample (150 * ether); sample (90 * ether)]
                    (mkMonitor None) eq_refl)).
  reflexivity.
Defined.

Section RunCounts.

Variable cfg : Config.

Lemma count_webhook_output (f : output -> bool) (w : world)
    (data : change_data) :
  (forall u b, f (HttpPost u b) = false) ->
  f (Printed LNotificationSent) = false ->
  (forall c, f (Printed (LNotificationError c)) = false) ->
  (forall e, f (Printed (LErrorSendingNotification e)) = false) ->
  count_if f (webhook_output cfg w data) = 0%nat.
Proof.
  intros H1 H2 H3 H4. unfold webhook_output, count_if.
  destruct (webhook_target cfg); [|reflexivity].
  cbn [filter]. rewrite H1.
  destruct (post w) as [[] c|e]; now rewrite ?H2, ?H3, ?H4.
Qed.

Lemma fatal_errors_cycle (w : world) (self : VaultCapMonitor) :
  count_if is_fatal_error (output_of (check_cap_change cfg w self)) = 0%nat.
Proof.
  destruct (cycle_output_cases cfg w self)
    as [(e & _ & ->)|(d & _ & [->|[->|[->|(p & ->)]]])];
    try reflexivity.
  change (change_block w p d :: ?l) with ([change_block w p d] ++ l).
  rewrite !count_if_app, count_webhook_output; reflexivity.
Qed.

Lemma fatal_errors_cycles (ws : list world) : forall self,
  count_if is_fatal_error (output_of (cycles cfg ws self)) = 0%nat.
Proof.
  induction ws as [|w ws IH]; intros self; [reflexivity|].
  now rewrite cycles_cons_output, count_if_app, fatal_errors_cycle, IH.
Qed.

Lemma cycle_starts_cycle (w : world) (self : VaultCapMonitor) :
  count_if is_cycle_start (output_of (check_cap_change cfg w self)) = 1%nat.
Proof.
  destruct (cycle_output_cases cfg w self)
    as [(e & _ & ->)|(d & _ & [->|[->|[->|(p & ->)]]])];
    try reflexivity.
  change (change_block w p d :: ?l) with ([change_block w p d] ++ l).
  rewrite !count_if_app, count_webhook_output; reflexivity.
Qed.

Lemma cycle_errors_changed (w : world) (p : float) (d : Decimal) :
  count_if is_cycle_error
    (header w d ++ change_block w p d
       :: webhook_output cfg w (event_data w p d)) = 0%nat.
Proof.
  change (change_block w p d :: ?l) with ([change_block w p d] ++ l).
  rewrite !count_if_app, count_webhook_output; reflexivity.
Qed.

End RunCounts.

(** X3: once the connection check has succeeded, no tick ends the run
    with a fatal error: over the ticks [ws], [main] prints the connection
    line and the banner, then the cycles of every tick, and never a
    "Fatal error" line. *)
Theorem X3_connected_run_never_fatal (cfg : Config) (ws : list world) :
  snd (main cfg true ws)
  = Printed LConnected :: Printed (LBanner cfg)
      :: output_of (cycles cfg ws (mkMonitor None)) /\
  count_if is_fatal_error (snd (main cfg true ws)) = 0%nat.
Proof.
  assert (snd (main cfg true ws)
          = [Printed LConnected; Printed (LBanner cfg)]
              ++ output_of (cycles cfg ws (mkMonitor None))) as E.
  { unfold main. cbn [init negb].
    rewrite start_output. reflexivity. }
  split; [exact E|].
  rewrite E. now rewrite count_if_app, fatal_errors_cycles.
Qed.

(** X4: every tick runs one cycle to its end, whatever happened in the
    cycles before it: the output of a run over [ws] holds exactly one
    opening line (the "Checking vault" line or the fetch error) per
    element of [ws]. *)
Theorem X4_every_tick_runs_a_cycle (cfg : Config) (ws : list world) :
  forall self : VaultCapMonitor,
  count_if is_cycle_start (output_of (cycles cfg ws self)) = List.length ws.
Proof.
  induction ws as [|w ws IH]; intros self; [reflexivity|].
  rewrite cycles_cons_output, count_if_app, cycle_starts_cycle, IH.
  reflexivity.
Qed.

(** X5: a cycle prints the error line of its handler in two situations
    only: the cap read failed, or the stored cap is a zero and the new
    cap differs from it (the division).  Failed optional reads and failed
    notifications never produce it. *)
Theorem X5_cycle_error_line_cases (cfg : Config) (w : world)
    (self : VaultCapMonitor) :
  count_if is_cycle_error (output_of (check_cap_change cfg w self))
  = match cap_read w, previous_cap self with
    | inl _, _ => 1%nat
    | inr d, Some p =>
        if cap_changed d p && PyFloat.is_zero p then 1%nat else 0%nat
    | inr _, None => 0%nat
    end.
Proof.
  destruct (cap_read w) as [e|d] eqn:Hr.
  - now rewrite (check_cap_change_read_error cfg w e self Hr).
  - rewrite (check_cap_change_read_ok cfg w d self Hr).
    destruct (previous_cap self) as [p|]; [|reflexivity].
    destruct (cap_changed d p); [|reflexivity].
    destruct (PyFloat.is_zero p); [reflexivity|].
    unfold output_of. cbn [snd andb]. apply cycle_errors_changed.
Qed.

Section StuckAtZero.

Variable cfg : Config.

Lemma zero_cap_cycle (w : world) (self : VaultCapMonitor) (p : float) :
  previous_cap self = Some p -> PyFloat.is_zero p = true ->
  monitor_of (check_cap_change cfg w self) = self /\
  change_events (output_of (check_cap_change cfg w self)) = 0%nat.
Proof.
  intros Hp Hz. destruct (cap_read w) as [e|d] eqn:Hr.
  - now rewrite (check_cap_change_read_error cfg w e self Hr).
  - rewrite (check_cap_change_read_ok cfg w d self Hr), Hp, Hz.
    destruct (cap_changed d p); split; reflexivity.
Qed.

End StuckAtZero.

(** X6: a stored cap of zero is never replaced.  From a monitor whose
    stored cap is a float zero, no run changes the stored cap, prints a
    change block or makes a request, whatever caps are read. *)
Theorem X6_zero_cap_is_never_replaced (cfg : Config) (ws : list world) :
  forall (self : VaultCapMonitor) (p : float),
  previous_cap self = Some p -> PyFloat.is_zero p = true ->
  monitor_of (cycles cfg ws self) = self /\
  change_events (output_of (cycles cfg ws self)) = 0%nat /\
  http_posts (output_of (cycles cfg ws self)) = 0%nat.
Proof.
  induction ws as [|w ws IH]; intros self p Hp Hz; [repeat split|].
  destruct (zero_cap_cycle cfg w self p Hp Hz) as [M E].
  destruct (IH self p Hp Hz) as (M' & E' & P').
  rewrite cycles_cons_monitor, cycles_cons_output.
  rewrite change_events_app, http_posts_app, http_posts_cycle, M, E, M', E', P'.
  destruct (webhook_target cfg); repeat split.
Qed.

Lemma X6_zero_cap_is_never_replaced_witness :
  monitor_of (cycles hooked [sample (50 * ether); sample (90 * ether)]
                (mkMonitor (Some (PyFloat.of_int 0))))
  = mkMonitor (Some (PyFloat.of_int 0)) /\
  change_events
    (output_of (cycles hooked [sample (50 * ether); sample (90 * ether)]
                  (mkMonitor (Some (PyFloat.of_int 0))))) = 0%nat /\
  http_posts
    (output_of (cycles hooked [sample (50 * ether); sample (90 * ether)]
                  (mkMonitor (Some (PyFloat.of_int 0))))) = 0%nat.
Proof.
  apply (X6_zero_cap_is_never_replaced hooked
           [sample (50 * ether); sample (90 * ether)]
           (mkMonitor (Some (PyFloat.of_int 0))) (PyFloat.of_int 0));
    reflexivity.
Defined.

Section Tracking.

Variable cfg : Config.

(** Behind a successful read of a positive cap, a cycle started with the
    float of a positive cap (or nothing) stored ends with the float of
    the cap just read stored. *)
Lemma cycle_stores_read (w : world) (d : Decimal) (prev : option Decimal) :
  cap_read w = inr d ->
  match prev with Some d0 => 0 < dec_units d0 | None => True end ->
  monitor_of (check_cap_change cfg w
                (mkMonitor (option_map float_of_decimal prev)))
  = mkMonitor (Some (float_of_decimal d)).
Proof.
  intros Hr Hp. pose proof (cap_read_range w d Hr) as Rd.
  rewrite (check_cap_change_read_ok cfg w d _ Hr).
  destruct prev as [d0|]; cbn [option_map previous_cap]; [|reflexivity].
  destruct (cap_changed d (float_of_decimal d0)) eqn:Hc.
  - now rewrite (float_of_decimal_not_zero d0 Hp).
  - unfold monitor_of. cbn [fst snd].
    rewrite (cap_unchanged_same_float d d0); [reflexivity| lia | lia | exact Hc].
Qed.

Lemma cycles_store_last_read (ws : list world) :
  forall prev : option Decimal,
  (forall w d, In w ws -> cap_read w = inr d -> 0 < dec_units d) ->
  match prev with Some d0 => 0 < dec_units d0 | None => True end ->
  monitor_of (cycles cfg ws (mkMonitor (option_map float_of_decimal prev)))
  = mkMonitor (option_map float_of_decimal (last_read prev ws)).
Proof.
  induction ws as [|w ws IH]; intros prev Hpos Hp; [reflexivity|].
  rewrite cycles_cons_monitor. cbn [last_read].
  destruct (cap_read w) as [e|d] eqn:Hr.
  - rewrite (check_cap_change_read_error cfg w e _ Hr).
    apply IH; [|exact Hp]. intros w' d' Hin. apply Hpos. now right.
  - rewrite (cycle_stores_read w d prev Hr Hp).
    apply (IH (Some d)).
    + intros w' d' Hin. apply Hpos. now right.
    + apply (Hpos w d); [now left | exact Hr].
Qed.

End Tracking.

(** X7: in a run whose successfully read caps are all positive, the
    stored cap after the run is the float of the cap of the last cycle
    whose read succeeded (unset when no read succeeded): cycles whose
    read failed are skipped, and an unchanged cap keeps the same float. *)
Theorem X7_stored_cap_is_last_read (cfg : Config) (ws : list world) :
  (forall w d, In w ws -> cap_read w = inr d -> 0 < dec_units d) ->
  monitor_of (start cfg ws (mkMonitor None))
  = mkMonitor (option_map float_of_decimal (last_read None ws)).
Proof.
  intros Hpos. rewrite start_monitor_of.
  exact (cycles_store_last_read cfg ws None Hpos I).
Qed.

Lemma X7_stored_cap_is_last_read_witness :
  monitor_of (start hooked [sample (100 * ether); rpc_down;
                            sample (150 * ether); rpc_down]
                (mkMonitor None))
  = mkMonitor (Some (PyFloat.of_int 150)).
Proof.
  rewrite (X7_stored_cap_is_last_read hooked
             [sample (100 * ether); rpc_down; sample (150 * ether); rpc_down]).
  - reflexivity.
  - intros w d [<-|[<-|[<-|[<-|[]]]]] [= <-]; reflexivity.
Defined.

(** X8: in a run whose caps are all read successfully and are all
    positive, a cycle prints a change block exactly when the float of
    its cap differs from the float of the cap of the cycle before, and
    the first cycle prints none. *)
Theorem X8_change_reported_iff_cap_differs (cfg : Config) (ws : list world)
    (ds : list Decimal) :
  Forall2 (fun w d => cap_read w = inr d) ws ds ->
  Forall (fun d => 0 < dec_units d) ds ->
  observed_events cfg ws (mkMonitor None) = expected_events None ds.
Proof.
  intros HR HP. apply observed_events_from_start; [exact HR|].
  apply Forall_impl with (2 := HP).
  intros d. apply float_of_decimal_not_zero.
Qed.

Lemma X8_change_reported_iff_cap_differs_witness :
  observed_events hooked
    [sample (100 * ether); sample (100 * ether); sample (120 * ether);
     sample (120 * ether)] (mkMonitor None)
  = [false; false; true; false].
Proof.
  rewrite (X8_change_reported_iff_cap_differs hooked
             [sample (100 * ether); sample (100 * ether);
              sample (120 * ether); sample (120 * ether)]
             [mkDecimal (100 * ether); mkDecimal (100 * ether);
              mkDecimal (120 * ether); mkDecimal (120 * ether)]).
  - reflexivity.
  - repeat constructor.
  - repeat constructor.
Defined.

(** X9: the first successful cycle stores the float of the cap it read,
    a float that is never NaN, infinite or negative, and that is zero
    exactly when the cap read is zero base units: a positive cap, however
    small, is never stored as zero. *)
Theorem X9_stored_float_zero_iff_cap_zero (cfg : Config) (w : world)
    (d : Decimal) :
  cap_read w = inr d ->
  monitor_of (check_cap_change cfg w (mkMonitor None))
  = mkMonitor (Some (float_of_decimal d)) /\
  PyFloat.nonneg (float_of_decimal d) = true /\
  PyFloat.is_finite (float_of_decimal d) = true /\
  (PyFloat.is_zero (float_of_decimal d) = true <-> dec_units d = 0).
Proof.
  intros Hr. pose proof (cap_read_range w d Hr) as Rd.
  split; [now rewrite (check_cap_change_read_ok cfg w d _ Hr)|].
  split; [apply float_of_decimal_nonneg; lia|].
  split; [now apply float_of_decimal_finite|].
  split.
  - intros Hz. destruct (Z.eq_dec (dec_units d) 0) as [E|N]; [exact E|].
    rewrite float_of_decimal_not_zero in Hz by lia. discriminate.
  - intros E. destruct d as [u]. cbn [dec_units] in E. subst u. reflexivity.
Qed.

Lemma X9_stored_float_zero_iff_cap_zero_witness :
  cap_read (sample 1) = inr (mkDecimal 1) /\
  monitor_of (check_cap_change CONFIG (sample 1) (mkMonitor None))
  = mkMonitor (Some (float_of_decimal (mkDecimal 1))) /\
  PyFloat.is_zero (float_of_decimal (mkDecimal 1)) = false.
Proof.
  pose proof (X9_stored_float_zero_iff_cap_zero CONFIG (sample 1)
                (mkDecimal 1) eq_refl) as (M & _ & _ & Z).
  split; [reflexivity|]. split; [exact M|].
  destruct (PyFloat.is_zero (float_of_decimal (mkDecimal 1)));
    [|reflexivity].
  pose proof (proj1 Z eq_refl) as E. discriminate E.
Defined.
